(** * rss2irc: a shallow embedding of [bot.py]

    The bot is one Python 2 module with two classes: [IRCBot] (the chat side:
    command handler, message splitting, nickname collisions) and [Bot] (the
    feed side: one fetcher loop per feed).  Everything the module talks to --
    the IRC connection, [feedparser], [tinyurl], the [FeedDB] -- is an
    external collaborator; it appears here as an interface over an abstract
    world, and the code of [bot.py] becomes functions in a small
    state/trace/exception monad over that world. *)

From Stdlib Require Import ZArith List String Ascii Bool Arith Lia.
From Stdlib Require Import DecimalString.
From Stdlib Require DecimalPos.
Import ListNotations.

Open Scope list_scope.
Open Scope string_scope.

(** ** Python strings

    The texts [bot.py] handles come from the IRC library and from the
    feeds, decoded: they are Python 2 [unicode] objects.  A character is
    taken here as a code point below 256, which is what Rocq's [ascii]
    holds; the methods below are the ones [bot.py] calls, with what they
    do on these code points. *)

Module PyStr.

Definition nl : ascii := "010"%char.

(** ["\n"] *)
Definition newline : string := String nl "".

Definition is_newline (c : ascii) : bool := Ascii.eqb c nl.

(** The characters [strip()] removes from a decoded text, the blanks of
    Unicode below 256: tab, LF, VT, FF, CR (9..13), the separators FS, GS,
    RS, US (28..31), space (32), NEL (133) and the no-break space (160). *)
Definition is_space (c : ascii) : bool :=
  let n := nat_of_ascii c in
  Nat.eqb n 32 || (Nat.leb 9 n && Nat.leb n 13) ||
  (Nat.leb 28 n && Nat.leb n 31) || Nat.eqb n 133 || Nat.eqb n 160.

(** [s.lower()]: the capital letters below 256 are A-Z (65..90) and
    192..222 but the multiplication sign (215); each has its small letter
    32 further. *)
Definition lower_char (c : ascii) : ascii :=
  let n := nat_of_ascii c in
  if (Nat.leb 65 n && Nat.leb n 90) ||
     (Nat.leb 192 n && Nat.leb n 222 && negb (Nat.eqb n 215))
  then ascii_of_nat (n + 32) else c.

Fixpoint lower (s : string) : string :=
  match s with
  | "" => ""
  | String c s' => String (lower_char c) (lower s')
  end.

Fixpoint lstrip (s : string) : string :=
  match s with
  | "" => ""
  | String c s' => if is_space c then lstrip s' else s
  end.

Fixpoint rstrip (s : string) : string :=
  match s with
  | "" => ""
  | String c s' =>
      match rstrip s' with
      | "" => if is_space c then "" else String c ""
      | r => String c r
      end
  end.

(** [s.strip()] *)
Definition strip (s : string) : string := rstrip (lstrip s).

(** [s.startswith(p)] *)
Definition startswith (s p : string) : bool := String.prefix p s.

Fixpoint drop (n : nat) (s : string) : string :=
  match n, s with
  | S n', String _ s' => drop n' s'
  | _, _ => s
  end.

(** [s.replace(old, new)] for a non-empty [old]: the occurrences are found
    left to right and do not overlap.  Each step consumes a character, so
    [length s] steps are enough. *)
Fixpoint replace_fuel (fuel : nat) (old new s : string) : string :=
  match fuel with
  | O => s
  | S fuel' =>
      match s with
      | "" => ""
      | String c s' =>
          if String.prefix old s
          then new ++ replace_fuel fuel' old new (drop (String.length old) s)
          else String c (replace_fuel fuel' old new s')
      end
  end.

Definition replace (s old new : string) : string :=
  replace_fuel (String.length s) old new s.

(** [s.split("\n")]: never empty; [n] separators give [n + 1] pieces. *)
Fixpoint split_lines (s : string) : list string :=
  match s with
  | "" => [""]
  | String c s' =>
      match split_lines s' with
      | [] => [String c ""]
      | l :: ls => if is_newline c then "" :: l :: ls else String c l :: ls
      end
  end.

(** One attempt of the pattern [.{1,n}] at the head of [s]: the quantifier
    is greedy and [.] matches everything but a newline, so the match is the
    longest run of at most [n] characters before the first newline.  The
    result is the matched text and what follows it; an empty match text
    means the pattern (which wants one character at least) failed here. *)
Fixpoint match_dots (n : nat) (s : string) : string * string :=
  match n, s with
  | S n', String c s' =>
      if is_newline c then ("", s)
      else let (m, r) := match_dots n' s' in (String c m, r)
  | _, _ => ("", s)
  end.

(** [re.findall('.{1,n}', s)]: scan from the left; where the pattern
    matches, keep the match and go on behind it; where it does not, move
    one character on. *)
Fixpoint findall_fuel (fuel n : nat) (s : string) : list string :=
  match fuel with
  | O => []
  | S fuel' =>
      match s with
      | "" => []
      | String _ s' =>
          match match_dots n s with
          | ("", _) => findall_fuel fuel' n s'
          | (m, r) => m :: findall_fuel fuel' n r
          end
      end
  end.

Definition findall_dots (n : nat) (s : string) : list string :=
  findall_fuel (String.length s) n s.

(** [str(i)] of an integer. *)
Definition str_of_int (i : Z) : string := NilZero.string_of_int (Z.to_int i).

Fixpoint digits_value (acc : Z) (s : string) : option Z :=
  match s with
  | "" => Some acc
  | String c s' =>
      let n := nat_of_ascii c in
      if Nat.leb 48 n && Nat.leb n 57
      then digits_value (10 * acc + Z.of_nat (n - 48)) s'
      else None
  end.

Definition digits (s : string) : option Z :=
  match s with
  | "" => None
  | _ => digits_value 0 s
  end.

(** [int(s)], base ten, as Python 2 reads a text: blanks, one optional
    sign, blanks again (Python 2 allows them after the sign), at least one
    digit, blanks, and nothing else.  [None] stands for the
    [ValueError]. *)
Definition py_int (s : string) : option Z :=
  match lstrip s with
  | String "-" d => option_map Z.opp (digits (rstrip (lstrip d)))
  | String "+" d => digits (rstrip (lstrip d))
  | d => digits (rstrip d)
  end.


End PyStr.

Import PyStr.


(** ** Data

    Tuples of the database and records of the libraries, with the fields
    [bot.py] reads. *)

(** A row of [FeedDB.get_feeds()]: [feed_info[0]] .. [feed_info[3]]. *)
Record Feed : Type := mkFeed {
  feed_id : Z;
  feed_name : string;
  feed_url : string;
  feed_frequency : Z
}.

(** A row of [get_latest_news()] / [get_news_from_feed()]: [entry[0]] is
    printed through [str], [entry[1]] .. [entry[3]] are concatenated as
    they are. *)
Record NewsRow : Type := mkNewsRow {
  news_id : Z;
  news_title : string;
  news_url : string;
  news_date : string
}.

(** An element of [feedparser]'s [entries].  Reading an attribute the
    document did not provide raises [AttributeError]: such a field is
    [None] here. *)
Record Entry : Type := mkEntry {
  title : option string;
  link : option string;
  published : option string;
  updated : option string
}.

(** The [event] argument of the IRC handlers: [event.arguments] and
    [event.source.nick]. *)
Record Event : Type := mkEvent {
  arguments : list string;
  source_nick : string
}.

Record Config : Type := mkConfig {
  HOST : string;
  PORT : Z;
  NICK : string;
  CHANNEL : string
}.

(** An instance of Python's [Exception] (with what [print e] shows).
    Interpreter signals that are not [Exception]s (KeyboardInterrupt,
    SystemExit) are not part of the model. *)
Inductive exn : Type :=
| Exception (what : string).

Definition what_of (e : exn) : string :=
  match e with Exception s => s end.

Inductive result (A : Type) : Type :=
| Ok (a : A)
| Raise (e : exn).

Arguments Ok {A} a.
Arguments Raise {A} e.

Definition is_ok {A : Type} (r : result A) : bool :=
  match r with Ok _ => true | Raise _ => false end.

(** What the program does to the outside, in order: every call of a
    collaborator with its arguments and its outcome.  [ActPostNews] marks
    the fetcher handing an announcement to [IRCBot.post_news]. *)
Inductive action : Type :=
| ActParse (url : string) (r : result (list Entry))
| ActShorten (url : string) (r : result string)
| ActInsert (fid : Z) (ntitle nurl ndate : string) (r : result bool)
| ActGetFeeds (r : result (list Feed))
| ActFeedsCount (r : result Z)
| ActNewsCount (r : result Z)
| ActLatestNews (r : result (list NewsRow))
| ActNewsFromFeed (fid : Z) (r : result (list NewsRow))
| ActPrivmsg (target text : string) (r : result unit)
| ActNick (newnick : string) (r : result unit)
| ActPostNews (fname ntitle nurl ndate : string)
| ActSleep (secs : Z)
| ActPrint (text : string).

(** ** The collaborators

    [World] is the state of everything outside [bot.py]: the network, the
    database file, the IRC session.  A call may change it and may raise. *)
Class Collaborators (World : Type) : Type := {
  (** [feedparser.parse(url).entries] *)
  feedparser_parse : string -> World -> result (list Entry) * World;
  (** [tinyurl.create_one(url)] *)
  tinyurl_create_one : string -> World -> result string * World;
  (** [FeedDB] *)
  db_get_feeds : World -> result (list Feed) * World;
  db_get_feeds_count : World -> result Z * World;
  db_get_news_count : World -> result Z * World;
  db_get_latest_news : World -> result (list NewsRow) * World;
  db_get_news_from_feed : Z -> World -> result (list NewsRow) * World;
  db_insert_news :
    Z -> string -> string -> string -> World -> result bool * World;
  (** [connection.privmsg(target, text)], [connection.nick(newnick)],
      [connection.get_nickname()] *)
  connection_privmsg : string -> string -> World -> result unit * World;
  connection_nick : string -> World -> result unit * World;
  connection_get_nickname : World -> string
}.

(** ** The monad: world, trace and exceptions *)

Module Run.

Section Monad.

Context {World : Type}.

Definition M (A : Type) : Type := World -> result A * World * list action.

Definition ret {A : Type} (a : A) : M A := fun w => (Ok a, w, []).

Definition raise {A : Type} (e : exn) : M A := fun w => (Raise e, w, []).

Definition bind {A B : Type} (m : M A) (f : A -> M B) : M B :=
  fun w =>
    match m w with
    | (Ok a, w1, t1) =>
        match f a w1 with
        | (r, w2, t2) => (r, w2, (t1 ++ t2)%list)
        end
    | (Raise e, w1, t1) => (Raise e, w1, t1)
    end.

(** [try: m  except Exception as e: h e] *)
Definition try_except {A : Type} (m : M A) (h : exn -> M A) : M A :=
  fun w =>
    match m w with
    | (Ok a, w1, t1) => (Ok a, w1, t1)
    | (Raise e, w1, t1) =>
        match h e w1 with
        | (r, w2, t2) => (r, w2, (t1 ++ t2)%list)
        end
    end.

Definition log (a : action) : M unit := fun w => (Ok tt, w, [a]).

(** A call of a collaborator, recorded with its outcome. *)
Definition call {A : Type} (f : World -> result A * World)
    (record : result A -> action) : M A :=
  fun w => match f w with (r, w1) => (r, w1, [record r]) end.

(** Read the world without changing it. *)
Definition peek {A : Type} (f : World -> A) : M A := fun w => (Ok (f w), w, []).

Definition result_of {A : Type} (m : M A) (w : World) : result A :=
  fst (fst (m w)).

Definition world_of {A : Type} (m : M A) (w : World) : World :=
  snd (fst (m w)).

Definition trace_of {A : Type} (m : M A) (w : World) : list action :=
  snd (m w).

End Monad.

Arguments M World A : clear implicits.

End Run.

Import Run.

Declare Scope py_scope.
Delimit Scope py_scope with py.

Notation "x <- m ;; k" := (bind m (fun x => k))
  (at level 100, m at next level, right associativity) : py_scope.
Notation "m ;;; k" := (bind m (fun _ => k))
  (at level 100, right associativity) : py_scope.

Open Scope py_scope.

(** The least integer that does not fit a C double: 2^1024 - 2^970. *)
Definition sleep_overflow : Z := Eval vm_compute in (2 ^ 1024 - 2 ^ 970)%Z.

(** ** The program *)

Section Program.

Context {World : Type} {collab : Collaborators World}.

Variable config : Config.

Local Abbreviation M := (Run.M World).

(** *** Library calls, as the code makes them *)

Definition feedparser_parse_ (url : string) : M (list Entry) :=
  call (feedparser_parse url) (ActParse url).

Definition tinyurl_create_one_ (url : string) : M string :=
  call (tinyurl_create_one url) (ActShorten url).

Definition get_feeds : M (list Feed) := call db_get_feeds ActGetFeeds.

Definition get_feeds_count : M Z := call db_get_feeds_count ActFeedsCount.

Definition get_news_count : M Z := call db_get_news_count ActNewsCount.

Definition get_latest_news : M (list NewsRow) :=
  call db_get_latest_news ActLatestNews.

Definition get_news_from_feed (feedid : Z) : M (list NewsRow) :=
  call (db_get_news_from_feed feedid) (ActNewsFromFeed feedid).

Definition insert_news (fid : Z) (ntitle nurl ndate : string) : M bool :=
  call (db_insert_news fid ntitle nurl ndate) (ActInsert fid ntitle nurl ndate).

Definition privmsg (target text : string) : M unit :=
  call (connection_privmsg target text) (ActPrivmsg target text).

Definition nick (newnick : string) : M unit :=
  call (connection_nick newnick) (ActNick newnick).

Definition get_nickname : M string := peek connection_get_nickname.

(** [print x] *)
Definition print (text : string) : M unit := log (ActPrint text).

(** [time.sleep(secs)] of an integer: a negative argument is an error,
    and so is one too large to be made a C double, that is one which
    rounds to 2^1024 or more.  What a platform does with a pause that
    fits a double but not its own clock is not modelled: nothing below
    relies on a pause of 2^31 seconds or more. *)
Definition time_sleep (secs : Z) : M unit :=
  if (secs <? 0)%Z then raise (Exception "IOError: [Errno 22] Invalid argument")
  else if (sleep_overflow <=? secs)%Z
  then raise (Exception "OverflowError: long int too large to convert to float")
  else log (ActSleep secs).

(** [obj.name] on a feedparser entry. *)
Definition getattr (field : option string) (name : string) : M string :=
  match field with
  | Some v => ret v
  | None => raise (Exception ("object has no attribute '" ++ name ++ "'"))
  end.

(** [for x in l: body x] *)
Fixpoint for_each {A : Type} (l : list A) (body : A -> M unit) : M unit :=
  match l with
  | [] => ret tt
  | x :: l' => body x ;;; for_each l' body
  end.

(** *** class IRCBot *)

(** The text [__help_msg] builds around the bot's nickname. *)
Definition help_text (nickname : string) : string :=
  "Help:" ++ newline ++
  "    Send all commands as a private message to " ++ nickname ++ newline ++
  "    - !help         Prints this help" ++ newline ++
  "    - !list         Prints all feeds" ++ newline ++
  "    - !stats        Prints some statistics" ++ newline ++
  "    - !last         Prints the last 25 entries" ++ newline ++
  "    - !lastfeed <feedid> Prints the last 25 entries from a specific feed"
  ++ newline.

(** [__help_msg] *)
Definition help_msg : M string :=
  nickname <- get_nickname ;;
  ret (help_text nickname).

(** One line of the [!list] answer. *)
Definition feed_line (entry : Feed) : string :=
  "#" ++ str_of_int (feed_id entry) ++ ": " ++ feed_name entry ++ ", " ++
  feed_url entry ++ ", updated every " ++ str_of_int (feed_frequency entry) ++
  " min" ++ newline.

(** One line of the [!last] and [!lastfeed] answers. *)
Definition news_line (entry : NewsRow) : string :=
  "#" ++ str_of_int (news_id entry) ++ ": " ++ news_title entry ++ ", " ++
  news_url entry ++ ", " ++ news_date entry ++ newline.

(** [answer = ""; for entry in rows: answer += line entry] *)
Definition accumulate {A : Type} (line : A -> string) (rows : list A) : string :=
  fold_left (fun answer entry => answer ++ line entry) rows "".

(** The [try] block of [__handle_msg]. *)
Definition handle_msg_try (msg : string) : M string :=
  if msg =? "!help" then help_msg
  else if msg =? "!list" then
    feeds <- get_feeds ;;
    ret (accumulate feed_line feeds)
  else if msg =? "!stats" then
    feeds_count <- get_feeds_count ;;
    news_count <- get_news_count ;;
    ret ("Feeds: " ++ str_of_int feeds_count ++ ", News: " ++ str_of_int news_count)
  else if msg =? "!last" then
    rows <- get_latest_news ;;
    ret (accumulate news_line (rev rows))
  else if startswith msg "!lastfeed" then
    match py_int (strip (replace msg "!lastfeed" "")) with
    | None => ret ("Wrong command: " ++ msg ++ ", use: !lastfeed <feedid>")
    | Some feedid =>
        rows <- get_news_from_feed feedid ;;
        ret (accumulate news_line (rev rows))
    end
  else help_msg.

Definition something_went_wrong : string := "Something went wrong :(".

(** [__handle_msg] *)
Definition handle_msg (msg : string) : M string :=
  try_except (handle_msg_try msg)
    (fun e => print (what_of e) ;;; ret something_went_wrong).

(** [send_msg] *)
Definition send_msg (target msg : string) : M unit :=
  try_except
    (for_each (split_lines msg) (fun line =>
       for_each (findall_dots 510 line) (fun sub_line =>
         privmsg target sub_line ;;;
         time_sleep 1)))
    (fun e => print (what_of e)).

(** [on_privmsg] *)
Definition on_privmsg (event : Event) : M unit :=
  match arguments event with
  | [] => ret tt
  | arg0 :: _ =>
      let msg := strip (lower arg0) in
      print msg ;;;
      answer <- handle_msg msg ;;
      send_msg (source_nick event) answer
  end.

(** [on_pubmsg] *)
Definition on_pubmsg (event : Event) : M unit :=
  match arguments event with
  | [] => ret tt
  | arg0 :: _ =>
      let msg := strip (lower arg0) in
      if msg =? "!help" then
        answer <- help_msg ;;
        send_msg (source_nick event) answer
      else ret tt
  end.

(** [on_nicknameinuse] *)
Definition on_nicknameinuse : M unit :=
  nickname <- get_nickname ;;
  nick (nickname ++ "_").

(** [post_news] *)
Definition post_news (fname ntitle nurl ndate : string) : M unit :=
  log (ActPostNews fname ntitle nurl ndate) ;;;
  try_except
    (let msg := fname ++ ": " ++ ntitle ++ ", " ++ nurl ++ ", " ++ ndate in
     send_msg (CHANNEL config) msg)
    (fun e => print (what_of e)).

(** *** class Bot *)

(** The nested [try] of [__fetch_feed] that picks the date. *)
Definition entry_date (newsitem : Entry) : M string :=
  try_except (getattr (published newsitem) "published")
    (fun _ =>
       try_except (getattr (updated newsitem) "updated")
         (fun _ => ret "no date")).

(** The body of the [for newsitem in ...] loop. *)
Definition process_entry (feed_info : Feed) (newsitem : Entry) : M unit :=
  newstitle <- getattr (title newsitem) "title" ;;
  long_url <- getattr (link newsitem) "link" ;;
  newsurl <- tinyurl_create_one_ long_url ;;
  newsurl <- (if newsurl =? "Error"
              then getattr (link newsitem) "link"
              else ret newsurl) ;;
  newsdate <- entry_date newsitem ;;
  is_new <- insert_news (feed_id feed_info) newstitle newsurl newsdate ;;
  if (is_new : bool)
  then post_news (feed_name feed_info) newstitle newsurl newsdate
  else ret tt.

(** The [try] block of one turn of the [while 1] loop. *)
Definition fetch_try (feed_info : Feed) : M unit :=
  news <- feedparser_parse_ (feed_url feed_info) ;;
  for_each (rev news) (process_entry feed_info) ;;;
  print ("Updated: " ++ feed_name feed_info).

(** One turn of the loop without its final sleep. *)
Definition fetch_once (feed_info : Feed) : M unit :=
  try_except (fetch_try feed_info)
    (fun e => print (what_of e) ;;; print ("Failed: " ++ feed_name feed_info)).

(** One turn of the loop. *)
Definition fetch_cycle (feed_info : Feed) : M unit :=
  fetch_once feed_info ;;;
  time_sleep (feed_frequency feed_info * 60).

(** [__fetch_feed] never returns; [fetch_feed n] is its first [n] turns. *)
Fixpoint fetch_feed (turns : nat) (feed_info : Feed) : M unit :=
  match turns with
  | O => ret tt
  | S n => fetch_cycle feed_info ;;; fetch_feed n feed_info
  end.

End Program.

(** ** Reading a trace *)

Module Trace.

(** The database inserts: arguments and answer. *)
Record insert_call : Type := mkInsert {
  ins_fid : Z;
  ins_title : string;
  ins_url : string;
  ins_date : string;
  ins_answer : result bool
}.

(** The announcements handed to [post_news]. *)
Record post_call : Type := mkPost {
  post_feed : string;
  post_title : string;
  post_url : string;
  post_date : string
}.

(** The lines given to [connection.privmsg]. *)
Record line_call : Type := mkLine {
  line_target : string;
  line_text : string;
  line_answer : result unit
}.

Definition inserts_of (tr : list action) : list insert_call :=
  flat_map (fun a =>
    match a with
    | ActInsert f t u d r => [mkInsert f t u d r]
    | _ => []
    end) tr.

Definition posts_of (tr : list action) : list post_call :=
  flat_map (fun a =>
    match a with
    | ActPostNews f t u d => [mkPost f t u d]
    | _ => []
    end) tr.

Definition lines_of (tr : list action) : list line_call :=
  flat_map (fun a =>
    match a with
    | ActPrivmsg t x r => [mkLine t x r]
    | _ => []
    end) tr.

Definition nicks_of (tr : list action) : list string :=
  flat_map (fun a =>
    match a with
    | ActNick n _ => [n]
    | _ => []
    end) tr.

Definition shortens_of (tr : list action) : list string :=
  flat_map (fun a =>
    match a with
    | ActShorten u _ => [u]
    | _ => []
    end) tr.

(** Calls of the [FeedDB]. *)
Definition is_gateway (a : action) : bool :=
  match a with
  | ActInsert _ _ _ _ _ | ActGetFeeds _ | ActFeedsCount _ | ActNewsCount _
  | ActLatestNews _ | ActNewsFromFeed _ _ => true
  | _ => false
  end.

(** A call of the [FeedDB] that raised. *)
Definition gateway_failed (a : action) : bool :=
  match a with
  | ActInsert _ _ _ _ (Raise _) | ActGetFeeds (Raise _)
  | ActFeedsCount (Raise _) | ActNewsCount (Raise _)
  | ActLatestNews (Raise _) | ActNewsFromFeed _ (Raise _) => true
  | _ => false
  end.

(** The insert reported the item as new. *)
Definition reported_new (i : insert_call) : bool :=
  match ins_answer i with Ok true => true | _ => false end.

(** The announcement [__fetch_feed] makes of a new insert. *)
Definition announcement (fname : string) (i : insert_call) : post_call :=
  mkPost fname (ins_title i) (ins_url i) (ins_date i).



End Trace.

Import Trace.

(** ** What [send_msg] sends, and the spec's wording of the date rule *)

(** The texts [send_msg] goes through, in order. *)
Definition send_chunks (msg : string) : list string :=
  flat_map (findall_dots 510) (split_lines msg).

Fixpoint has_newline (s : string) : bool :=
  match s with
  | "" => false
  | String c s' => is_newline c || has_newline s'
  end.

(** The date rule in the words of the specification: the published
    timestamp if present, otherwise the updated one if present, otherwise
    "no date". *)
Definition date_rule (e : Entry) : string :=
  match published e with
  | Some p => p
  | None =>
      match updated e with
      | Some u => u
      | None => "no date"
      end
  end.

(** ** A simulated world

    A small concrete set of collaborators, to run the program on. *)

Module Sim.

Inductive shortener : Type :=
| ShortWorks      (* answers a short URL *)
| ShortMarker     (* answers the text "Error" *)
| ShortRaises.    (* raises *)

Record world : Type := mkWorld {
  nickname : string;
  document : list Entry;
  tiny : shortener;
  stored : list (Z * string);
  db_up : bool;          (* the database can be reached *)
  lines_left : nat       (* the connection breaks after that many lines *)
}.

Definition key_eqb (a b : Z * string) : bool :=
  Z.eqb (fst a) (fst b) && String.eqb (snd a) (snd b).

Definition db_down {A : Type} : result A :=
  Raise (Exception "OperationalError: unable to open database file").

Definition sim_query {A : Type} (answer : world -> A) (w : world)
  : result A * world :=
  if db_up w then (Ok (answer w), w) else (db_down, w).

Definition sim_parse (url : string) (w : world) : result (list Entry) * world :=
  (Ok (document w), w).

Definition sim_shorten (url : string) (w : world) : result string * world :=
  match tiny w with
  | ShortWorks => (Ok ("http://tinyurl.com/" ++ drop 26 url), w)
  | ShortMarker => (Ok "Error", w)
  | ShortRaises => (Raise (Exception "IOError: tinyurl unreachable"), w)
  end.

Definition sim_insert (fid : Z) (t u d : string) (w : world)
  : result bool * world :=
  if negb (db_up w) then (db_down, w)
  else if existsb (key_eqb (fid, u)) (stored w)
  then (Ok false, w)
  else (Ok true,
        mkWorld (nickname w) (document w) (tiny w) ((fid, u) :: stored w)
                (db_up w) (lines_left w)).

Definition sim_privmsg (target text : string) (w : world)
  : result unit * world :=
  match lines_left w with
  | O => (Raise (Exception "ServerNotConnectedError"), w)
  | S n =>
      (Ok tt,
       mkWorld (nickname w) (document w) (tiny w) (stored w) (db_up w) n)
  end.

(** The session reports the nickname last asked for. *)
Definition sim_nick (newnick : string) (w : world) : result unit * world :=
  (Ok tt,
   mkWorld newnick (document w) (tiny w) (stored w) (db_up w) (lines_left w)).

#[global] Instance sim : Collaborators world := {
  feedparser_parse := sim_parse;
  tinyurl_create_one := sim_shorten;
  db_get_feeds := sim_query (fun _ => []);
  db_get_feeds_count := sim_query (fun _ => 0%Z);
  db_get_news_count := sim_query (fun w => Z.of_nat (List.length (stored w)));
  db_get_latest_news := sim_query (fun _ => []);
  db_get_news_from_feed := fun _ => sim_query (fun _ => []);
  db_insert_news := sim_insert;
  connection_privmsg := sim_privmsg;
  connection_nick := sim_nick;
  connection_get_nickname := nickname
}.

Definition cfg : Config := mkConfig "irc.example.org" 6667 "rssbot" "#news".

Definition feed1 : Feed := mkFeed 1 "Planet" "http://planet.example.org/rss" 10.

Definition entry_a : Entry :=
  mkEntry (Some "First post") (Some "http://planet.example.org/1")
          (Some "Mon, 01 Jan 2024") None.

Definition entry_b : Entry :=
  mkEntry (Some "Second post") (Some "http://planet.example.org/2")
          None (Some "Tue, 02 Jan 2024").

Definition entry_c : Entry :=
  mkEntry (Some "Third post") (Some "http://planet.example.org/3") None None.

(** The document lists the newest entry first. *)
Definition w0 : world :=
  mkWorld "rssbot" [entry_c; entry_b; entry_a] ShortWorks [] true 1000.

Definition w_marker : world :=
  mkWorld "rssbot" [entry_c; entry_b; entry_a] ShortMarker [] true 1000.

Definition w_raises : world :=
  mkWorld "rssbot" [entry_c; entry_b; entry_a] ShortRaises [] true 1000.

(** The three entries were stored by an earlier run. *)
Definition w_seen : world :=
  mkWorld "rssbot" [entry_c; entry_b; entry_a] ShortWorks
    [(1%Z, "http://tinyurl.com/3"); (1%Z, "http://tinyurl.com/2");
     (1%Z, "http://tinyurl.com/1")] true 1000.

(** The database file cannot be opened. *)
Definition w_db_down : world :=
  mkWorld "rssbot" [entry_c; entry_b; entry_a] ShortWorks [] false 1000.

Fixpoint repeat_string (n : nat) (s : string) : string :=
  match n with
  | O => ""
  | S n' => s ++ repeat_string n' s
  end.

(** A line of 1025 characters. *)
Definition long_line : string := repeat_string 205 "abcde".

End Sim.

(** ** Properties of traces *)

(** [P] holds of the trace of [m], whatever the world. *)
Definition always {World A : Type} (P : list action -> Prop)
    (m : M World A) : Prop :=
  forall w, P (trace_of m w).

(** [m] returns: it lets no exception out. *)
Definition returns {World A : Type} (m : M World A) : Prop :=
  forall w, exists a, result_of m w = Ok a.

(** Nothing but lines to [target], pauses and console output. *)
Definition only_talks_to (target : string) (tr : list action) : Prop :=
  inserts_of tr = [] /\ posts_of tr = [] /\ nicks_of tr = [] /\
  filter is_gateway tr = [] /\
  Forall (fun l => line_target l = target) (lines_of tr).

(** The fetcher's discipline: the announcements are those of the inserts
    that reported a new item, one each and in the same order; the inserts
    are for this feed; lines go to the channel, and there are none
    without an announcement. *)
Definition fetch_discipline (channel : string) (feed_info : Feed)
    (tr : list action) : Prop :=
  posts_of tr =
    map (announcement (feed_name feed_info))
        (filter reported_new (inserts_of tr)) /\
  Forall (fun i => ins_fid i = feed_id feed_info) (inserts_of tr) /\
  Forall (fun l => line_target l = channel) (lines_of tr) /\
  (posts_of tr = [] -> lines_of tr = []).

(** Insert [i] is the one the loop body makes for entry [e]. *)
Definition inserted_from (feed_info : Feed) (e : Entry) (i : insert_call)
    : Prop :=
  ins_fid i = feed_id feed_info /\
  title e = Some (ins_title i) /\
  ins_date i = date_rule e.

(** The URL the loop body settles on after the shortener answered
    [short] for [long]. *)
Definition chosen_url (long short : string) : string :=
  if short =? "Error" then long else short.


(** ** The rest of the chat side

    [on_join] gets the callback [IRCBot] was built with as an argument. *)

Section Lifecycle.

Context {World : Type} {collab : Collaborators World}.

Variable config : Config.

(** The greeting of [on_join]. *)
Definition greeting (nickname : string) : string :=
  "Hi, I'm " ++ nickname ++
  " and your bot. Send !help to get a list of commands.".

(** [on_join]: the greeting goes straight to [connection.privmsg], then
    the callback runs. *)
Definition on_join (on_connect_cb : M World unit) : M World unit :=
  nickname <- get_nickname ;;
  privmsg (CHANNEL config) (greeting nickname) ;;;
  on_connect_cb.

End Lifecycle.

(** ** More readings of a trace *)

Definition sleeps_of (tr : list action) : list Z :=
  flat_map (fun a =>
    match a with
    | ActSleep s => [s]
    | _ => []
    end) tr.


(** Lines that were taken, each followed by its pause of one second. *)
Definition paced (target : string) (texts : list string) : list action :=
  flat_map (fun c => [ActPrivmsg target c (Ok tt); ActSleep 1]) texts.

(** The text without its newlines. *)
Fixpoint remove_newlines (s : string) : string :=
  match s with
  | "" => ""
  | String c s' =>
      if is_newline c then remove_newlines s' else String c (remove_newlines s')
  end.

(** The text [post_news] hands to [send_msg]. *)
Definition announcement_text (fname ntitle nurl ndate : string) : string :=
  fname ++ ": " ++ ntitle ++ ", " ++ nurl ++ ", " ++ ndate.

(** The entry can be read by the loop body: it has a title and a link. *)
Definition readable (e : Entry) : bool :=
  match title e, link e with
  | Some _, Some _ => true
  | _, _ => false
  end.

(** A call of the shortener, or an insert, that raised. *)
Definition call_failed (a : action) : bool :=
  match a with
  | ActShorten _ (Raise _) | ActInsert _ _ _ _ (Raise _) => true
  | _ => false
  end.

(** The lines of chunks the connection took. *)
Definition taken (target : string) (chunks : list string) : list line_call :=
  map (fun c => mkLine target c (Ok tt)) chunks.


(** ** More simulated collaborators

    The simulated world again, with a database that has news to show and a
    parser that can be out of reach. *)

Module Sim2.

Definition row1 : NewsRow :=
  mkNewsRow 7 "Second post" "http://tinyurl.com/2" "Tue, 02 Jan 2024".

Definition row2 : NewsRow :=
  mkNewsRow 5 "First post" "http://tinyurl.com/1" "Mon, 01 Jan 2024".

Definition parse_down (url : string) (w : Sim.world)
  : result (list Entry) * Sim.world :=
  (Raise (Exception "URLError: name or service not known"), w).

(** The collaborators of [Sim.sim], with [rows] for every query of news
    (newest first) and, if [online] is false, a parser that raises. *)
Definition collaborators (rows : list NewsRow) (online : bool)
  : Collaborators Sim.world := {|
  feedparser_parse := if online then Sim.sim_parse else parse_down;
  tinyurl_create_one := Sim.sim_shorten;
  db_get_feeds := Sim.sim_query (fun _ => [Sim.feed1]);
  db_get_feeds_count := Sim.sim_query (fun _ => 1%Z);
  db_get_news_count := Sim.sim_query (fun _ => Z.of_nat (List.length rows));
  db_get_latest_news := Sim.sim_query (fun _ => rows);
  db_get_news_from_feed := fun _ => Sim.sim_query (fun _ => rows);
  db_insert_news := Sim.sim_insert;
  connection_privmsg := Sim.sim_privmsg;
  connection_nick := Sim.sim_nick;
  connection_get_nickname := Sim.nickname
|}.

(** An entry without link between two good ones. *)
Definition entry_bad : Entry :=
  mkEntry (Some "Broken post") None (Some "Wed, 03 Jan 2024") None.

Definition w_bad : Sim.world :=
  Sim.mkWorld "rssbot" [Sim.entry_c; entry_bad; Sim.entry_a] Sim.ShortWorks
    [] true 1000.

(** The connection is gone. *)
Definition w_offline : Sim.world :=
  Sim.mkWorld "rssbot" [] Sim.ShortWorks [] true 0.

(** *** Collaborators that never fail *)

Definition steady_shorten (url : string) (w : Sim.world)
  : result string * Sim.world :=
  (Ok ("http://tinyurl.com/" ++ drop 26 url), w).

Definition steady_insert (fid : Z) (t u d : string) (w : Sim.world)
  : result bool * Sim.world :=
  (Ok (negb (existsb (Sim.key_eqb (fid, u)) (Sim.stored w))),
   if existsb (Sim.key_eqb (fid, u)) (Sim.stored w) then w
   else Sim.mkWorld (Sim.nickname w) (Sim.document w) (Sim.tiny w)
          ((fid, u) :: Sim.stored w) (Sim.db_up w) (Sim.lines_left w)).

Definition steady_privmsg (target text : string) (w : Sim.world)
  : result unit * Sim.world :=
  (Ok tt, w).

(** The shortener and the database always answer, the connection takes
    every line. *)
Definition steady : Collaborators Sim.world := {|
  feedparser_parse := Sim.sim_parse;
  tinyurl_create_one := steady_shorten;
  db_get_feeds := fun w => (Ok [Sim.feed1], w);
  db_get_feeds_count := fun w => (Ok 1%Z, w);
  db_get_news_count :=
    fun w => (Ok (Z.of_nat (List.length (Sim.stored w))), w);
  db_get_latest_news := fun w => (Ok [], w);
  db_get_news_from_feed := fun _ w => (Ok [], w);
  db_insert_news := steady_insert;
  connection_privmsg := steady_privmsg;
  connection_nick := Sim.sim_nick;
  connection_get_nickname := Sim.nickname
|}.

(** *** A connection that keeps to the line limit of IRC

    A line on the wire is "PRIVMSG", a blank, the target, a blank and a
    colon, the text, CR and LF: twelve characters more than target and
    text.  The connection refuses a line of more than 512. *)
Definition strict_privmsg (target text : string) (w : Sim.world)
  : result unit * Sim.world :=
  if Nat.ltb 512 (String.length target + String.length text + 12)
  then (Raise (Exception "MessageTooLong: Messages limited to 512 bytes including CR/LF"),
        w)
  else Sim.sim_privmsg target text w.

Definition strict : Collaborators Sim.world := {|
  feedparser_parse := Sim.sim_parse;
  tinyurl_create_one := Sim.sim_shorten;
  db_get_feeds := Sim.sim_query (fun _ => []);
  db_get_feeds_count := Sim.sim_query (fun _ => 0%Z);
  db_get_news_count :=
    Sim.sim_query (fun w => Z.of_nat (List.length (Sim.stored w)));
  db_get_latest_news := Sim.sim_query (fun _ => []);
  db_get_news_from_feed := fun _ => Sim.sim_query (fun _ => []);
  db_insert_news := Sim.sim_insert;
  connection_privmsg := strict_privmsg;
  connection_nick := Sim.sim_nick;
  connection_get_nickname := Sim.nickname
|}.

(** *** A session that has not yet heard from the server

    The rename request is sent; the nickname the session reports changes
    only when the server confirms it, and it has not. *)
Definition pending_nick (newnick : string) (w : Sim.world)
  : result unit * Sim.world :=
  (Ok tt, w).

Definition pending : Collaborators Sim.world := {|
  feedparser_parse := Sim.sim_parse;
  tinyurl_create_one := Sim.sim_shorten;
  db_get_feeds := Sim.sim_query (fun _ => []);
  db_get_feeds_count := Sim.sim_query (fun _ => 0%Z);
  db_get_news_count :=
    Sim.sim_query (fun w => Z.of_nat (List.length (Sim.stored w)));
  db_get_latest_news := Sim.sim_query (fun _ => []);
  db_get_news_from_feed := fun _ => Sim.sim_query (fun _ => []);
  db_insert_news := Sim.sim_insert;
  connection_privmsg := Sim.sim_privmsg;
  connection_nick := pending_nick;
  connection_get_nickname := Sim.nickname
|}.

End Sim2.

(** Texts without whitespace and without "!": numbers as [str] writes
    them are such. *)
Definition plain_char (c : ascii) : bool :=
  negb (is_space c) && negb (Ascii.eqb c "!").

Fixpoint plain (s : string) : bool :=
  match s with
  | "" => true
  | String c s' => plain_char c && plain s'
  end.

(** * Theorems *)

Example split_lines_ex :
  split_lines ("ab" ++ newline ++ newline ++ "c" ++ newline) = ["ab"; ""; "c"; ""].
Proof. reflexivity. Qed.

Example findall_ex : findall_dots 3 "abcdefgh" = ["abc"; "def"; "gh"].
Proof. reflexivity. Qed.

Example findall_nl_ex :
  findall_dots 3 ("abcd" ++ newline ++ "ef") = ["abc"; "d"; "ef"].
Proof. reflexivity. Qed.

Example replace_ex : replace "!lastfeed 12" "!lastfeed" "" = " 12".
Proof. reflexivity. Qed.

Example py_int_ex :
  py_int " 12" = Some 12%Z /\ py_int "-7" = Some (-7)%Z /\
  py_int "abc" = None /\ py_int "" = None /\ py_int "+" = None /\
  py_int "- 3 " = Some (-3)%Z /\ py_int "3 4" = None /\ py_int "12L" = None.
Proof. repeat split; reflexivity. Qed.

Example strip_unicode_blanks_ex :
  strip (String "031" ("!help" ++ String "160" "")) = "!help".
Proof. reflexivity. Qed.

(** "!lastfeed", a blank, the separator U+001F and "3": feed 3. *)
Example lastfeed_unicode_blank_ex :
  py_int (strip (replace ("!lastfeed " ++ String "031" "3") "!lastfeed" ""))
  = Some 3%Z.
Proof. reflexivity. Qed.

Example str_of_int_ex :
  str_of_int 0 = "0" /\ str_of_int 25 = "25" /\ str_of_int (-3) = "-3".
Proof. repeat split; reflexivity. Qed.

Example strip_lower_ex : strip (lower "  !HeLp ") = "!help".
Proof. reflexivity. Qed.


(** ** Facts about the string functions *)

Section StringFacts.

Lemma length_app (a b : string) :
  String.length (a ++ b) = String.length a + String.length b.
Proof. induction a as [|c a IH]; simpl; [reflexivity | now rewrite IH]. Qed.

Lemma app_empty_r (a : string) : a ++ "" = a.
Proof. induction a as [|c a IH]; simpl; [reflexivity | now rewrite IH]. Qed.

Lemma app_assoc (a b c : string) : (a ++ b) ++ c = a ++ (b ++ c).
Proof. induction a as [|x a IH]; simpl; [reflexivity | now rewrite IH]. Qed.

Lemma has_newline_app (a b : string) :
  has_newline (a ++ b) = has_newline a || has_newline b.
Proof.
  induction a as [|c a IH]; simpl; [reflexivity|].
  now rewrite IH, orb_assoc.
Qed.

(** What one attempt of the pattern returns. *)
Lemma match_dots_spec (n : nat) (s : string) :
  fst (match_dots n s) ++ snd (match_dots n s) = s /\
  String.length (fst (match_dots n s)) <= n /\
  has_newline (fst (match_dots n s)) = false.
Proof.
  revert s; induction n as [|n IH]; intros s.
  - destruct s; simpl; repeat split; auto.
  - destruct s as [|c s]; simpl; [repeat split; auto with arith|].
    destruct (is_newline c) eqn:Hc; simpl; [repeat split; auto with arith|].
    specialize (IH s). destruct (match_dots n s) as [m r]. simpl in *.
    destruct IH as (E & L & N). rewrite E, Hc, N. repeat split; auto with arith.
Qed.

(** On a text without newline the attempt takes [min n (length s)]
    characters. *)
Lemma match_dots_single (n : nat) (s : string) :
  has_newline s = false ->
  String.length (fst (match_dots n s)) = Nat.min n (String.length s).
Proof.
  revert s; induction n as [|n IH]; intros s H.
  - destruct s; reflexivity.
  - destruct s as [|c s]; simpl in *; [reflexivity|].
    apply orb_false_iff in H. destruct H as [Hc Hs]. rewrite Hc.
    specialize (IH s Hs). destruct (match_dots n s) as [m r]. simpl in *.
    now rewrite IH.
Qed.

(** Every text [findall] returns has between 1 and [n] characters, none of
    them a newline. *)
Lemma findall_fuel_bounds (n fuel : nat) (s : string) :
  Forall (fun c => 1 <= String.length c <= n /\ has_newline c = false)
         (findall_fuel fuel n s).
Proof.
  revert s; induction fuel as [|fuel IH]; intros s; simpl; [constructor|].
  destruct s as [|c s]; [constructor|].
  pose proof (match_dots_spec n (String c s)) as (E & L & N).
  destruct (match_dots n (String c s)) as [m r]. simpl in E, L, N.
  destruct m as [|x m]; [apply IH|].
  constructor; [|apply IH].
  simpl in *. repeat split; auto with arith.
Qed.

(** On a text without newline, [findall] cuts the text into consecutive
    pieces, and there are [ceil (length s / n)] of them. *)
Lemma findall_fuel_single (n fuel : nat) (s : string) :
  0 < n -> has_newline s = false -> String.length s <= fuel ->
  String.concat "" (findall_fuel fuel n s) = s /\
  List.length (findall_fuel fuel n s) = (String.length s + (n - 1)) / n.
Proof.
  intros Hn. revert s; induction fuel as [|fuel IH]; intros s Hs Hf.
  - destruct s; simpl in *; [|lia].
    split; [reflexivity|]. symmetry; apply Nat.div_small; lia.
  - destruct s as [|c s].
    { simpl. split; [reflexivity|]. symmetry; apply Nat.div_small; lia. }
    cbn [findall_fuel].
    pose proof (match_dots_spec n (String c s)) as (E & L & N).
    pose proof (match_dots_single n (String c s) Hs) as K.
    destruct (match_dots n (String c s)) as [m r]. cbn [fst snd] in E, L, N, K.
    assert (Hr : has_newline r = false).
    { rewrite <- E, has_newline_app in Hs. now apply orb_false_iff in Hs. }
    assert (Hlen : String.length m + String.length r = String.length (String c s)).
    { now rewrite <- E, length_app. }
    destruct m as [|x m].
    { simpl in K. destruct n; simpl in K; lia. }
    assert (Hrf : String.length r <= fuel).
    { simpl in Hlen, Hf. simpl. lia. }
    destruct (IH r Hr Hrf) as [C1 C2].
    split.
    + transitivity (String x m ++ String.concat "" (findall_fuel fuel n r)).
      * cbn [String.concat]. destruct (findall_fuel fuel n r); simpl.
        -- now rewrite app_empty_r.
        -- reflexivity.
      * now rewrite C1.
    + cbn [List.length]. rewrite C2.
      set (L0 := String.length (String c s)) in *.
      set (k := String.length (String x m)) in *.
      assert (Hk1 : 1 <= k) by (unfold k; simpl; lia).
      destruct (Nat.le_gt_cases L0 n) as [Hle|Hgt].
      * assert (String.length r = 0) by lia.
        replace (String.length r + (n - 1)) with (n - 1) by lia.
        rewrite (Nat.div_small (n - 1) n) by lia.
        replace (L0 + (n - 1)) with ((L0 - 1) + 1 * n) by lia.
        rewrite Nat.div_add by lia.
        rewrite (Nat.div_small (L0 - 1) n) by lia. reflexivity.
      * assert (String.length r = L0 - n) by lia.
        replace (L0 + (n - 1)) with ((String.length r + (n - 1)) + 1 * n) by lia.
        rewrite Nat.div_add by lia. lia.
Qed.

Lemma findall_dots_single (n : nat) (s : string) :
  0 < n -> has_newline s = false ->
  String.concat "" (findall_dots n s) = s /\
  List.length (findall_dots n s) = (String.length s + (n - 1)) / n.
Proof. intros Hn Hs. apply findall_fuel_single; auto. Qed.

(** [split] and [join] are inverse, and no piece keeps a newline. *)
Lemma split_lines_not_nil (s : string) : split_lines s <> [].
Proof.
  induction s as [|c s IH]; simpl; [discriminate|].
  destruct (split_lines s); [discriminate|].
  destruct (is_newline c); discriminate.
Qed.

Lemma is_newline_eq (c : ascii) : is_newline c = true -> c = nl.
Proof. unfold is_newline. apply Ascii.eqb_eq. Qed.

Lemma join_split_lines (s : string) :
  String.concat newline (split_lines s) = s.
Proof.
  induction s as [|c s IH]; [reflexivity|].
  simpl. pose proof (split_lines_not_nil s) as Hne.
  destruct (split_lines s) as [|l ls]; [contradiction|].
  destruct (is_newline c) eqn:Hc.
  - apply is_newline_eq in Hc. subst c.
    change (String.concat newline ("" :: l :: ls))
      with (newline ++ String.concat newline (l :: ls)).
    rewrite IH. reflexivity.
  - destruct ls as [|l2 ls]; simpl in *; now rewrite <- IH.
Qed.

Lemma split_lines_no_newline (s : string) :
  Forall (fun l => has_newline l = false) (split_lines s).
Proof.
  induction s as [|c s IH]; simpl; [repeat constructor|].
  pose proof (split_lines_not_nil s) as Hne.
  destruct (split_lines s) as [|l ls]; simpl.
  - contradiction.
  - inversion IH as [|? ? Hl Hls]; subst.
    destruct (is_newline c) eqn:Hc.
    + constructor; [reflexivity|]. constructor; assumption.
    + constructor; [|assumption]. simpl. now rewrite Hc.
Qed.

(** A text without newline is its own single line. *)
Lemma split_lines_single (s : string) :
  has_newline s = false -> split_lines s = [s].
Proof.
  induction s as [|c s IH]; simpl; [reflexivity|].
  intros H. apply orb_false_iff in H. destruct H as [Hc Hs].
  rewrite (IH Hs), Hc. reflexivity.
Qed.

Lemma send_chunks_bounds (msg : string) :
  Forall (fun c => 1 <= String.length c <= 510 /\ has_newline c = false)
         (send_chunks msg).
Proof.
  unfold send_chunks. induction (split_lines msg) as [|l ls IH]; simpl.
  - constructor.
  - apply Forall_app. split; [apply findall_fuel_bounds | exact IH].
Qed.

End StringFacts.

(** ** Properties that every piece of a computation keeps

    A property of traces that holds of the empty trace and of the
    concatenation of two traces that have it, holds of a computation as
    soon as it holds of the calls the computation makes. *)

Section TraceInvariant.

Context {World : Type}.

Variable P : list action -> Prop.
Hypothesis P_nil : P [].
Hypothesis P_app : forall a b, P a -> P b -> P (a ++ b)%list.

Lemma always_ret {A : Type} (a : A) : always P (ret (World := World) a).
Proof. intros w. exact P_nil. Qed.

Lemma always_raise {A : Type} (e : exn) :
  always P (raise (World := World) (A := A) e).
Proof. intros w. exact P_nil. Qed.

Lemma always_peek {A : Type} (f : World -> A) : always P (peek f).
Proof. intros w. exact P_nil. Qed.

Lemma always_log (a : action) : P [a] -> always P (log (World := World) a).
Proof. intros H w. exact H. Qed.

Lemma always_call {A : Type} (f : World -> result A * World)
    (record : result A -> action) :
  (forall r, P [record r]) -> always P (call f record).
Proof.
  intros H w. unfold trace_of, call. destruct (f w) as [r w1]. apply H.
Qed.

Lemma always_bind {A B : Type} (m : M World A) (f : A -> M World B) :
  always P m -> (forall a, always P (f a)) -> always P (bind m f).
Proof.
  intros Hm Hf w. unfold always, trace_of, bind in *.
  specialize (Hm w). destruct (m w) as [[r w1] t1]. simpl in Hm.
  destruct r as [a|e]; [|exact Hm].
  specialize (Hf a w1). destruct (f a w1) as [[r2 w2] t2]. simpl in *.
  now apply P_app.
Qed.

Lemma always_try {A : Type} (m : M World A) (h : exn -> M World A) :
  always P m -> (forall e, always P (h e)) -> always P (try_except m h).
Proof.
  intros Hm Hh w. unfold always, trace_of, try_except in *.
  specialize (Hm w). destruct (m w) as [[r w1] t1]. simpl in Hm.
  destruct r as [a|e]; [exact Hm|].
  specialize (Hh e w1). destruct (h e w1) as [[r2 w2] t2]. simpl in *.
  now apply P_app.
Qed.

Lemma always_for_each {A : Type} (l : list A) (body : A -> M World unit) :
  (forall x, always P (body x)) -> always P (for_each l body).
Proof.
  intros H. induction l as [|x l IH]; simpl.
  - apply always_ret.
  - apply always_bind; [apply H | intros _; exact IH].
Qed.

Lemma always_time_sleep (secs : Z) :
  P [ActSleep secs] -> always P (time_sleep (World := World) secs).
Proof.
  intros H. unfold time_sleep. destruct (secs <? 0)%Z.
  - apply always_raise.
  - destruct (sleep_overflow <=? secs)%Z.
    + apply always_raise.
    + now apply always_log.
Qed.

Lemma always_getattr (field : option string) (name : string) :
  always P (getattr (World := World) field name).
Proof. destruct field; [apply always_ret | apply always_raise]. Qed.

Context {collab : Collaborators World}.

Lemma always_send_msg (target msg : string) :
  (forall x r, P [ActPrivmsg target x r]) ->
  P [ActSleep 1] ->
  (forall s, P [ActPrint s]) ->
  always P (send_msg target msg).
Proof.
  intros Hl Hs Hp. unfold send_msg.
  apply always_try.
  - apply always_for_each. intros line.
    apply always_for_each. intros sub_line.
    apply always_bind.
    + apply always_call. apply Hl.
    + intros _. now apply always_time_sleep.
  - intros e. apply always_log. apply Hp.
Qed.

Lemma always_help_msg : always P help_msg.
Proof.
  unfold help_msg. apply always_bind; [apply always_peek|].
  intros n. apply always_ret.
Qed.

End TraceInvariant.

(** ** Computations that let no exception out *)

Section Returns.

Context {World : Type} {collab : Collaborators World}.

Lemma try_except_returns {A : Type} (m : M World A) (h : exn -> M World A) :
  (forall e, returns (h e)) -> returns (try_except m h).
Proof.
  intros Hh w. unfold result_of, try_except.
  destruct (m w) as [[r w1] t1]. destruct r as [a|e]; simpl.
  - now exists a.
  - destruct (Hh e w1) as [a Ha]. unfold result_of in Ha.
    destruct (h e w1) as [[r2 w2] t2]. simpl in *. now exists a.
Qed.

Lemma print_returns (s : string) : returns (print (World := World) s).
Proof. intros w. now exists tt. Qed.

Lemma send_msg_returns (target msg : string) : returns (send_msg target msg).
Proof. apply try_except_returns. intros e. apply print_returns. Qed.

Lemma send_msg_result (target msg : string) (w : World) :
  result_of (send_msg target msg) w = Ok tt.
Proof.
  destruct (send_msg_returns target msg w) as [[] H]. exact H.
Qed.

End Returns.

(** ** Loops *)

Section Loops.

Context {World : Type}.

Lemma for_each_app {A : Type} (a b : list A) (body : A -> M World unit)
    (w : World) :
  for_each (a ++ b)%list body w =
  bind (for_each a body) (fun _ => for_each b body) w.
Proof.
  revert w; induction a as [|x a IH]; intros w; simpl.
  - unfold bind, ret. destruct (for_each b body w) as [[r w1] t]. reflexivity.
  - unfold bind. destruct (body x w) as [[r w1] t1].
    destruct r as [[]|e]; [|reflexivity].
    rewrite IH. unfold bind.
    destruct (for_each a body w1) as [[r2 w2] t2].
    destruct r2 as [[]|e2]; [|reflexivity].
    destruct (for_each b body w2) as [[r3 w3] t3].
    now rewrite List.app_assoc.
Qed.

(** Two nested loops go through the concatenation of the inner lists. *)
Lemma for_each_flat_map {A B : Type} (g : A -> list B) (l : list A)
    (body : B -> M World unit) (w : World) :
  for_each l (fun x => for_each (g x) body) w =
  for_each (flat_map g l) body w.
Proof.
  revert w; induction l as [|x l IH]; intros w; simpl; [reflexivity|].
  rewrite for_each_app. unfold bind.
  destruct (for_each (g x) body w) as [[r w1] t1].
  destruct r as [[]|e]; [rewrite IH|]; reflexivity.
Qed.

End Loops.

(** ** [send_msg]: what reaches the connection *)

Section SendMsg.

Context {World : Type} {collab : Collaborators World}.

Lemma bind_run {A B : Type} (m : M World A) (f : A -> M World B) (w : World) :
  bind m f w =
  match m w with
  | (Ok a, w1, t1) =>
      match f a w1 with (r, w2, t2) => (r, w2, (t1 ++ t2)%list) end
  | (Raise e, w1, t1) => (Raise e, w1, t1)
  end.
Proof. reflexivity. Qed.

(** One turn of the inner loop of [send_msg]. *)
Lemma send_step_run (target c : string) (w : World) :
  (privmsg target c ;;; time_sleep 1) w =
  match connection_privmsg target c w with
  | (Ok u, w1) => (Ok tt, w1, [ActPrivmsg target c (Ok u); ActSleep 1])
  | (Raise e, w1) => (Raise e, w1, [ActPrivmsg target c (Raise e)])
  end.
Proof.
  unfold bind, privmsg, call.
  destruct (connection_privmsg target c w) as [[u|e] w1]; reflexivity.
Qed.



End SendMsg.

(** ** The fetcher, one entry at a time *)

Section Fetcher.

Context {World : Type} {collab : Collaborators World}.

Variable config : Config.

Lemma lines_of_app (a b : list action) :
  lines_of (a ++ b)%list = (lines_of a ++ lines_of b)%list.
Proof. apply flat_map_app. Qed.

Lemma inserts_of_app (a b : list action) :
  inserts_of (a ++ b)%list = (inserts_of a ++ inserts_of b)%list.
Proof. apply flat_map_app. Qed.

Lemma posts_of_app (a b : list action) :
  posts_of (a ++ b)%list = (posts_of a ++ posts_of b)%list.
Proof. apply flat_map_app. Qed.

Lemma nicks_of_app (a b : list action) :
  nicks_of (a ++ b)%list = (nicks_of a ++ nicks_of b)%list.
Proof. apply flat_map_app. Qed.

Lemma only_talks_to_nil (target : string) : only_talks_to target [].
Proof. repeat split; constructor. Qed.

Lemma only_talks_to_app (target : string) (a b : list action) :
  only_talks_to target a -> only_talks_to target b ->
  only_talks_to target (a ++ b)%list.
Proof.
  intros (A1 & A2 & A3 & A4 & A5) (B1 & B2 & B3 & B4 & B5).
  unfold only_talks_to.
  rewrite inserts_of_app, posts_of_app, nicks_of_app, filter_app, lines_of_app.
  rewrite A1, A2, A3, A4, B1, B2, B3, B4.
  repeat split; auto. apply Forall_app. now split.
Qed.

Lemma send_msg_only_talks (target msg : string) :
  always (only_talks_to target) (send_msg target msg).
Proof.
  apply always_send_msg.
  - apply only_talks_to_nil.
  - apply only_talks_to_app.
  - intros x r. repeat split; repeat constructor.
  - repeat split; constructor.
  - intros s. repeat split; constructor.
Qed.

(** The nested [try] computes the date rule, and touches nothing. *)
Lemma entry_date_run (e : Entry) (w : World) :
  entry_date e w = (Ok (date_rule e), w, []).
Proof.
  unfold entry_date, date_rule, try_except, getattr.
  destruct (published e); [reflexivity|].
  destruct (updated e); reflexivity.
Qed.

(** [post_news] always returns; after its mark, it only talks to the
    channel. *)
Lemma post_news_run (f t u d : string) (w : World) :
  exists w1 tr,
    post_news config f t u d w = (Ok tt, w1, ActPostNews f t u d :: tr) /\
    only_talks_to (CHANNEL config) tr.
Proof.
  unfold post_news. rewrite bind_run. cbn [log].
  set (msg := f ++ ": " ++ t ++ ", " ++ u ++ ", " ++ d).
  pose proof (send_msg_result (CHANNEL config) msg w) as Hr.
  pose proof (send_msg_only_talks (CHANNEL config) msg w) as Ht.
  unfold result_of, trace_of in Hr, Ht. unfold try_except.
  destruct (send_msg (CHANNEL config) msg w) as [[r w1] tr].
  cbn in Hr, Ht. subst r. exists w1, tr. split; [reflexivity | exact Ht].
Qed.

(** The loop body, case by case. *)
Lemma process_entry_run (feed_info : Feed) (e : Entry) (w : World) :
  process_entry config feed_info e w =
  match title e, link e with
  | Some t, Some l =>
      match tinyurl_create_one l w with
      | (Ok u, w1) =>
          let url := chosen_url l u in
          match db_insert_news (feed_id feed_info) t url (date_rule e) w1 with
          | (Ok true, w2) =>
              match post_news config (feed_name feed_info) t url (date_rule e) w2
              with
              | (r, w3, tr) =>
                  (r, w3,
                   ActShorten l (Ok u)
                   :: ActInsert (feed_id feed_info) t url (date_rule e) (Ok true)
                   :: tr)
              end
          | (Ok false, w2) =>
              (Ok tt, w2,
               [ActShorten l (Ok u);
                ActInsert (feed_id feed_info) t url (date_rule e) (Ok false)])
          | (Raise x, w2) =>
              (Raise x, w2,
               [ActShorten l (Ok u);
                ActInsert (feed_id feed_info) t url (date_rule e) (Raise x)])
          end
      | (Raise x, w1) => (Raise x, w1, [ActShorten l (Raise x)])
      end
  | None, _ =>
      (Raise (Exception "object has no attribute 'title'"), w, [])
  | Some _, None =>
      (Raise (Exception "object has no attribute 'link'"), w, [])
  end.
Proof.
  unfold process_entry.
  destruct (title e) as [t|]; [|reflexivity].
  destruct (link e) as [l|]; [|reflexivity].
  cbn [getattr]. rewrite bind_run. cbn [ret]. rewrite bind_run. cbn [ret].
  rewrite bind_run. unfold tinyurl_create_one_ at 1, call at 1.
  destruct (tinyurl_create_one l w) as [[u|x] w1]; [|reflexivity].
  rewrite bind_run.
  assert (E : (if u =? "Error" then ret (World := World) l else ret u) w1
              = (Ok (chosen_url l u), w1, [])).
  { unfold chosen_url. destruct (u =? "Error"); reflexivity. }
  rewrite E. rewrite bind_run, entry_date_run. rewrite bind_run.
  unfold insert_news at 1, call at 1. cbv zeta.
  destruct (db_insert_news (feed_id feed_info) t (chosen_url l u) (date_rule e) w1)
    as [[[|]|x] w2]; try reflexivity.
  destruct (post_news config (feed_name feed_info) t (chosen_url l u)
              (date_rule e) w2) as [[r w3] tr].
  reflexivity.
Qed.

End Fetcher.

(** ** The fetcher's discipline *)

Section Discipline.

Context {World : Type} {collab : Collaborators World}.

Variable config : Config.
Variable feed_info : Feed.

Local Abbreviation disciplined :=
  (fetch_discipline (CHANNEL config) feed_info).

Lemma discipline_nil : disciplined [].
Proof. repeat split; auto; constructor. Qed.

Lemma discipline_app (a b : list action) :
  disciplined a -> disciplined b -> disciplined (a ++ b)%list.
Proof.
  intros (A1 & A2 & A3 & A4) (B1 & B2 & B3 & B4). unfold fetch_discipline.
  rewrite posts_of_app, inserts_of_app, lines_of_app, filter_app, map_app.
  repeat split.
  - now rewrite A1, B1.
  - apply Forall_app. now split.
  - apply Forall_app. now split.
  - intros H. apply List.app_eq_nil in H. destruct H as [Ha Hb].
    now rewrite (A4 Ha), (B4 Hb).
Qed.

(** A call that is neither an insert, nor an announcement, nor a line. *)
Lemma discipline_quiet (a : action) :
  inserts_of [a] = [] -> posts_of [a] = [] -> lines_of [a] = [] ->
  disciplined [a].
Proof.
  intros H1 H2 H3. unfold fetch_discipline. rewrite H1, H2, H3.
  repeat split; auto; constructor.
Qed.

Lemma process_entry_disciplined (e : Entry) :
  always disciplined (process_entry config feed_info e).
Proof.
  intros w. unfold trace_of. rewrite process_entry_run.
  destruct (title e) as [t|]; [|apply discipline_nil].
  destruct (link e) as [l|]; [|apply discipline_nil].
  destruct (tinyurl_create_one l w) as [[u|x] w1].
  2:{ apply discipline_quiet; reflexivity. }
  cbv zeta.
  destruct (db_insert_news (feed_id feed_info) t (chosen_url l u) (date_rule e) w1)
    as [[[|]|x] w2].
  - destruct (post_news_run config (feed_name feed_info) t (chosen_url l u)
                (date_rule e) w2) as (w3 & tr & E & I1 & I2 & _ & _ & I5).
    rewrite E. cbn [snd]. unfold fetch_discipline.
    cbn. fold (inserts_of tr) (posts_of tr) (lines_of tr).
    rewrite I1, I2. cbn.
    split; [reflexivity|]. split; [repeat constructor|].
    split; [exact I5 | discriminate].
  - cbn. repeat split; auto; repeat constructor.
  - cbn. repeat split; auto; repeat constructor.
Qed.

Lemma fetch_once_disciplined :
  always disciplined (fetch_once config feed_info).
Proof.
  pose proof discipline_nil as N. pose proof discipline_app as A.
  unfold fetch_once, fetch_try.
  apply always_try; try assumption.
  - apply always_bind; try assumption.
    + apply always_call. intros r. apply discipline_quiet; reflexivity.
    + intros news. apply always_bind; try assumption.
      * apply always_for_each; try assumption.
        apply process_entry_disciplined.
      * intros _. apply always_log. apply discipline_quiet; reflexivity.
  - intros e. apply always_bind; try assumption.
    + apply always_log. apply discipline_quiet; reflexivity.
    + intros _. apply always_log. apply discipline_quiet; reflexivity.
Qed.

Lemma fetch_cycle_disciplined :
  always disciplined (fetch_cycle config feed_info).
Proof.
  unfold fetch_cycle. apply always_bind.
  - apply discipline_app.
  - apply fetch_once_disciplined.
  - intros _. apply always_time_sleep.
    + apply discipline_nil.
    + apply discipline_quiet; reflexivity.
Qed.

Lemma fetch_feed_disciplined (turns : nat) :
  always disciplined (fetch_feed config turns feed_info).
Proof.
  induction turns as [|n IH]; simpl.
  - apply always_ret. apply discipline_nil.
  - apply always_bind.
    + apply discipline_app.
    + apply fetch_cycle_disciplined.
    + intros _. exact IH.
Qed.

End Discipline.

(** ** The command handler *)

Section Handler.

Context {World : Type} {collab : Collaborators World}.

Lemma prefix_split (p s : string) :
  String.prefix p s = true -> exists r, s = p ++ r.
Proof.
  revert s; induction p as [|c p IH]; intros s H.
  - exists s. reflexivity.
  - destruct s as [|d s]; simpl in H; [discriminate|].
    destruct (ascii_dec c d) as [->|]; [|discriminate].
    destruct (IH s H) as [r ->]. exists r. reflexivity.
Qed.

Lemma prefix_app (p r : string) : String.prefix p (p ++ r) = true.
Proof.
  induction p as [|c p IH]; simpl.
  - destruct r; reflexivity.
  - destruct (ascii_dec c c); [exact IH | contradiction].
Qed.




(** [help_msg] reads the nickname and calls nobody. *)
Lemma help_msg_run (w : World) :
  help_msg w = (Ok (help_text (connection_get_nickname w)), w, []).
Proof. reflexivity. Qed.

(** If a call of the database raises, so does the [try] block. *)
Lemma handle_msg_try_gateway (msg : string) (w : World) :
  existsb gateway_failed (trace_of (handle_msg_try msg) w) = true ->
  exists e, result_of (handle_msg_try msg) w = Raise e.
Proof.
  unfold trace_of, result_of.
  assert (G : forall out : result string * World * list action,
             (let '(r, _, t) := out in
              existsb gateway_failed t = true -> exists e, r = Raise e) ->
             existsb gateway_failed (snd out) = true ->
             exists e, fst (fst out) = Raise e).
  { intros [[r w1] t]. auto. }
  apply G. clear G. unfold handle_msg_try.
  destruct (msg =? "!help"); [rewrite help_msg_run; discriminate|].
  destruct (msg =? "!list").
  { rewrite bind_run. unfold get_feeds, call.
    destruct (db_get_feeds w) as [[a|e] w1]; cbn; [discriminate|].
    intros _. now exists e. }
  destruct (msg =? "!stats").
  { rewrite bind_run. unfold get_feeds_count, call.
    destruct (db_get_feeds_count w) as [[a|e] w1].
    - rewrite bind_run. unfold get_news_count, call.
      destruct (db_get_news_count w1) as [[b|e] w2]; cbn; [discriminate|].
      intros _. now exists e.
    - cbn. intros _. now exists e. }
  destruct (msg =? "!last").
  { rewrite bind_run. unfold get_latest_news, call.
    destruct (db_get_latest_news w) as [[a|e] w1]; cbn; [discriminate|].
    intros _. now exists e. }
  destruct (startswith msg "!lastfeed"); [|rewrite help_msg_run; discriminate].
  destruct (py_int (strip (replace msg "!lastfeed" ""))) as [feedid|];
    [|discriminate].
  rewrite bind_run. unfold get_news_from_feed, call.
  destruct (db_get_news_from_feed feedid w) as [[a|e] w1]; cbn; [discriminate|].
  intros _. now exists e.
Qed.

Lemma handle_msg_returns (msg : string) : returns (handle_msg msg).
Proof.
  apply try_except_returns. intros e w. now exists something_went_wrong.
Qed.

(** When the [try] block raises, the answer is the fixed one. *)
Lemma handle_msg_caught (msg : string) (w : World) (e : exn) :
  result_of (handle_msg_try msg) w = Raise e ->
  result_of (handle_msg msg) w = Ok something_went_wrong.
Proof.
  unfold handle_msg, result_of, try_except.
  destruct (handle_msg_try msg w) as [[r w1] t1]. cbn.
  intros ->. reflexivity.
Qed.

(** The handler adds nothing but console output to what the [try] block
    did. *)
Lemma handle_msg_gateway_calls (msg : string) (w : World) :
  existsb gateway_failed (trace_of (handle_msg msg) w) =
  existsb gateway_failed (trace_of (handle_msg_try msg) w).
Proof.
  unfold handle_msg, trace_of, try_except.
  destruct (handle_msg_try msg w) as [[[a|e] w1] t1]; cbn; [reflexivity|].
  rewrite existsb_app. cbn. now rewrite orb_false_r.
Qed.


End Handler.

(** ** The help text, line by line *)

Section HelpText.


(** A line of 1 to [n] characters is one chunk. *)
Lemma findall_dots_one (n : nat) (s : string) :
  has_newline s = false -> 1 <= String.length s <= n ->
  findall_dots n s = [s].
Proof.
  intros Hs [H1 Hn].
  destruct (findall_dots_single n s) as [C L]; [lia | assumption |].
  replace (String.length s + (n - 1)) with ((String.length s - 1) + 1 * n)
    in L by lia.
  rewrite Nat.div_add, Nat.div_small in L by lia.
  destruct (findall_dots n s) as [|x [|y l]]; simpl in L; try discriminate.
  simpl in C. now subst x.
Qed.






End HelpText.

(** ** More on [send_msg] and on the public-message handler *)

Section Replies.

Context {World : Type} {collab : Collaborators World}.




(** [on_nicknameinuse]: one call of [connection.nick]. *)
Lemma on_nicknameinuse_run (w : World) :
  on_nicknameinuse w =
  (fst (connection_nick (connection_get_nickname w ++ "_") w),
   snd (connection_nick (connection_get_nickname w ++ "_") w),
   [ActNick (connection_get_nickname w ++ "_")
            (fst (connection_nick (connection_get_nickname w ++ "_") w))]).
Proof.
  unfold on_nicknameinuse. rewrite bind_run. cbn. unfold nick, call.
  destruct (connection_nick _ w) as [r w1]. reflexivity.
Qed.

End Replies.

(** ** [send_msg], chunk by chunk *)

Section SendShape.

Context {World : Type} {collab : Collaborators World}.

Lemma paced_app (target : string) (a b : list string) :
  paced target (a ++ b)%list = (paced target a ++ paced target b)%list.
Proof. apply flat_map_app. Qed.

(** The inner loops: every chunk taken and followed by its pause, or the
    chunks before number [k] taken and chunk [k] refused. *)
Lemma chunk_loop_shape (target : string) (chunks : list string) (w : World) :
  let out :=
    for_each chunks
      (fun sub_line => privmsg target sub_line ;;; time_sleep 1) w in
  (fst (fst out) = Ok tt /\ snd out = paced target chunks) \/
  (exists k c e,
     nth_error chunks k = Some c /\
     fst (fst out) = Raise e /\
     snd out =
       (paced target (firstn k chunks) ++ [ActPrivmsg target c (Raise e)])%list).
Proof.
  revert w; induction chunks as [|c cs IH]; intros w; cbv zeta.
  - left. split; reflexivity.
  - cbn [for_each]. rewrite bind_run, send_step_run.
    destruct (connection_privmsg target c w) as [[[]|e] w1].
    + specialize (IH w1). cbv zeta in IH.
      destruct (for_each cs _ w1) as [[r2 w2] t2]. cbn [fst snd] in *.
      destruct IH as [[Hr Ht]|(k & c' & e & Hn & Hr & Ht)].
      * left. subst. split; reflexivity.
      * right. exists (S k), c', e. subst. repeat split. exact Hn.
    + right. exists 0, c, e. repeat split.
Qed.

(** The lines of a paced run are the chunks, each of them taken. *)
Lemma lines_of_paced (target : string) (chunks : list string) :
  lines_of (paced target chunks) = taken target chunks.
Proof.
  induction chunks as [|c cs IH]; [reflexivity|].
  change (paced target (c :: cs))
    with ([ActPrivmsg target c (Ok tt); ActSleep 1] ++ paced target cs)%list.
  rewrite lines_of_app, IH. reflexivity.
Qed.

(** The lines [send_msg] gives to the connection are those of its
    loops: the handler only prints. *)
Lemma send_msg_lines_of_loop (target msg : string) (w : World) :
  lines_of (trace_of (send_msg target msg) w) =
  lines_of (snd (for_each (send_chunks msg)
                   (fun sub_line => privmsg target sub_line ;;; time_sleep 1)
                   w)).
Proof.
  unfold send_msg, trace_of, try_except.
  rewrite for_each_flat_map. fold (send_chunks msg).
  destruct (for_each (send_chunks msg) _ w) as [[[[]|e] w1] t1];
    [reflexivity|].
  cbn. unfold lines_of. rewrite flat_map_app. cbn. apply List.app_nil_r.
Qed.

(** The connection gets the chunks in order, until it refuses one. *)
Lemma send_msg_sent (target msg : string) (w : World) :
  let sent := lines_of (trace_of (send_msg target msg) w) in
  sent = taken target (send_chunks msg) \/
  exists k c e,
    nth_error (send_chunks msg) k = Some c /\
    sent = (taken target (firstn k (send_chunks msg)) ++
            [mkLine target c (Raise e)])%list.
Proof.
  cbv zeta. rewrite send_msg_lines_of_loop.
  pose proof (chunk_loop_shape target (send_chunks msg) w) as H.
  cbv zeta in H.
  destruct (for_each (send_chunks msg) _ w) as [[r w1] t].
  cbn [fst snd] in *.
  destruct H as [[_ Ht]|(k & c & e & Hn & _ & Ht)]; subst t.
  - left. apply lines_of_paced.
  - right. exists k, c, e. split; [exact Hn|].
    rewrite lines_of_app, lines_of_paced. reflexivity.
Qed.

(** When the connection takes every chunk, the loop goes through all of
    them. *)
Lemma chunk_loop_taken (target : string) (chunks : list string) (w : World) :
  (forall c w', In c chunks ->
     is_ok (fst (connection_privmsg target c w')) = true) ->
  snd (for_each chunks
         (fun sub_line => privmsg target sub_line ;;; time_sleep 1) w)
  = paced target chunks.
Proof.
  revert w; induction chunks as [|c cs IH]; intros w H; [reflexivity|].
  cbn [for_each]. rewrite bind_run, send_step_run.
  pose proof (H c w (or_introl eq_refl)) as Hc.
  destruct (connection_privmsg target c w) as [[[]|e] w1]; cbn in Hc;
    [|discriminate Hc].
  assert (H' : forall c' w', In c' cs ->
                 is_ok (fst (connection_privmsg target c' w')) = true).
  { intros c' w' Hin. apply H. right. exact Hin. }
  specialize (IH w1 H').
  destruct (for_each cs _ w1) as [[r2 w2] t2]. cbn [fst snd] in *.
  subst t2. reflexivity.
Qed.

Lemma send_msg_all_taken (target msg : string) (w : World) :
  (forall c w', In c (send_chunks msg) ->
     is_ok (fst (connection_privmsg target c w')) = true) ->
  lines_of (trace_of (send_msg target msg) w) = taken target (send_chunks msg).
Proof.
  intros H. rewrite send_msg_lines_of_loop, (chunk_loop_taken _ _ _ H).
  apply lines_of_paced.
Qed.

End SendShape.

(** ** How a turn of the fetcher ends *)

Section FetchOutcome.

Context {World : Type} {collab : Collaborators World}.

Variable config : Config.
Variable feed_info : Feed.

(** The loop body on one entry: it ends normally after one insert, made
    for the entry; or it raises, and then either nothing was inserted and
    the shortener raised or the entry has no title or no link, or the
    insert made for the entry raised. *)
Lemma process_entry_outcome (e : Entry) (w : World) :
  let out := process_entry config feed_info e w in
  (fst (fst out) = Ok tt /\
   exists i, inserts_of (snd out) = [i] /\ inserted_from feed_info e i) \/
  (exists x, fst (fst out) = Raise x /\
     ((inserts_of (snd out) = [] /\
       (existsb call_failed (snd out) = true \/ readable e = false)) \/
      (existsb call_failed (snd out) = true /\
       exists i, inserts_of (snd out) = [i] /\ inserted_from feed_info e i))).
Proof.
  cbv zeta. rewrite process_entry_run.
  destruct (title e) as [t|] eqn:Ht.
  2:{ right. eexists. split; [reflexivity|]. left. split; [reflexivity|].
      right. unfold readable. rewrite Ht. reflexivity. }
  destruct (link e) as [l|] eqn:Hl.
  2:{ right. eexists. split; [reflexivity|]. left. split; [reflexivity|].
      right. unfold readable. rewrite Ht, Hl. reflexivity. }
  destruct (tinyurl_create_one l w) as [[u|x] w1].
  2:{ right. exists x. split; [reflexivity|]. left. split; [reflexivity|].
      left. reflexivity. }
  cbv zeta.
  destruct (db_insert_news (feed_id feed_info) t (chosen_url l u) (date_rule e) w1)
    as [[[|]|x] w2].
  - destruct (post_news_run config (feed_name feed_info) t (chosen_url l u)
                (date_rule e) w2) as (w3 & tr & E & I1 & _).
    rewrite E. left. split; [reflexivity|].
    exists (mkInsert (feed_id feed_info) t (chosen_url l u) (date_rule e)
              (Ok true)).
    split; [|repeat split; auto].
    cbn. fold (inserts_of tr). rewrite I1. reflexivity.
  - left. split; [reflexivity|].
    exists (mkInsert (feed_id feed_info) t (chosen_url l u) (date_rule e)
              (Ok false)).
    split; [reflexivity | repeat split; auto].
  - right. exists x. split; [reflexivity|]. right. split; [reflexivity|].
    exists (mkInsert (feed_id feed_info) t (chosen_url l u) (date_rule e)
              (Raise x)).
    split; [reflexivity | repeat split; auto].
Qed.

(** The loop over the entries: the inserts are those of a front part of
    the list, entry by entry.  The loop ends normally after an insert for
    every entry; or it raises, and then a call of the shortener or an
    insert raised, or the entry it stopped at has no title or no link. *)
Lemma entries_loop_outcome (es : list Entry) (w : World) :
  let out := for_each es (process_entry config feed_info) w in
  let ins := inserts_of (snd out) in
  List.length ins <= List.length es /\
  Forall2 (inserted_from feed_info) (firstn (List.length ins) es) ins /\
  ((fst (fst out) = Ok tt /\ List.length ins = List.length es) \/
   (exists x, fst (fst out) = Raise x /\
      (existsb call_failed (snd out) = true \/
       exists e, nth_error es (List.length ins) = Some e /\
                 readable e = false))).
Proof.
  revert w; induction es as [|e es IH]; intros w; cbv zeta.
  - cbn. split; [lia|]. split; [constructor|]. left. split; reflexivity.
  - cbn [for_each]. rewrite bind_run.
    pose proof (process_entry_outcome e w) as H. cbv zeta in H.
    destruct (process_entry config feed_info e w) as [[r w1] t1].
    cbn [fst snd] in H.
    destruct H as [[Hr (i & Hi & Hf)]
                  |(x & Hr & [[Hi Hc]|[Hc (i & Hi & Hf)]])];
      subst r; cbv beta iota.
    + specialize (IH w1). cbv zeta in IH.
      destruct (for_each es _ w1) as [[r2 w2] t2]. cbn [fst snd] in *.
      rewrite inserts_of_app, Hi. cbn [List.app List.length firstn nth_error].
      destruct IH as (Hk & HF & Hend).
      split; [lia|]. split; [constructor; assumption|].
      destruct Hend as [[Hr2 Hl]|(x & Hr2 & Hwhy)].
      * left. split; [exact Hr2 | now rewrite Hl].
      * right. exists x. split; [exact Hr2|].
        destruct Hwhy as [Hc|(e' & Hn & Hread)].
        -- left. rewrite existsb_app, Hc. apply orb_true_r.
        -- right. exists e'. split; [exact Hn | exact Hread].
    + cbn [fst snd]. rewrite Hi. cbn [List.length firstn nth_error].
      split; [lia|]. split; [constructor|]. right. exists x.
      split; [reflexivity|]. destruct Hc as [Hc|Hread].
      * left. exact Hc.
      * right. exists e. split; [reflexivity | exact Hread].
    + cbn [fst snd]. rewrite Hi. cbn [List.length firstn nth_error].
      split; [lia|]. split; [constructor; [exact Hf | constructor]|].
      right. exists x. split; [reflexivity|]. left. exact Hc.
Qed.

(** With entries that all have title and link, a shortener and a
    database that never raise, the loop ends normally. *)
Lemma entries_loop_complete (es : list Entry) (w : World) :
  Forall (fun e => readable e = true) es ->
  (forall l w', is_ok (fst (tinyurl_create_one l w')) = true) ->
  (forall f t u d w', is_ok (fst (db_insert_news f t u d w')) = true) ->
  fst (fst (for_each es (process_entry config feed_info) w)) = Ok tt.
Proof.
  intros Hread Hs Hi. revert w.
  induction Hread as [|e es He _ IH]; intros w; [reflexivity|].
  cbn [for_each]. rewrite bind_run, process_entry_run.
  cbv beta in He. unfold readable in He.
  destruct (title e) as [t|]; [|discriminate He].
  destruct (link e) as [l|]; [|discriminate He].
  pose proof (Hs l w) as Hsl.
  destruct (tinyurl_create_one l w) as [[u|x] w1]; cbn in Hsl;
    [|discriminate Hsl].
  cbv zeta.
  pose proof (Hi (feed_id feed_info) t (chosen_url l u) (date_rule e) w1)
    as Hii.
  destruct (db_insert_news (feed_id feed_info) t (chosen_url l u) (date_rule e) w1)
    as [[[|]|x] w2]; cbn in Hii; [| |discriminate Hii].
  - destruct (post_news_run config (feed_name feed_info) t (chosen_url l u)
                (date_rule e) w2) as (w3 & tr & E & _).
    rewrite E. cbv beta iota. specialize (IH w3).
    destruct (for_each es _ w3) as [[r2 w4] t2]. exact IH.
  - cbv beta iota. specialize (IH w2).
    destruct (for_each es _ w2) as [[r2 w4] t2]. exact IH.
Qed.

(** One turn, read through its loop over the entries [E]. *)
Lemma fetch_once_trace (w w1 : World) (E : list Entry) :
  feedparser_parse (feed_url feed_info) w = (Ok E, w1) ->
  let out := for_each (rev E) (process_entry config feed_info) w1 in
  result_of (fetch_try config feed_info) w = fst (fst out) /\
  exists prints,
    trace_of (fetch_once config feed_info) w =
      ([ActParse (feed_url feed_info) (Ok E)] ++ snd out ++ prints)%list /\
    inserts_of prints = [] /\
    existsb call_failed prints = false.
Proof.
  intros Hp. cbv zeta.
  unfold result_of, trace_of, fetch_once, try_except, fetch_try.
  rewrite bind_run. unfold feedparser_parse_, call. rewrite Hp.
  rewrite bind_run.
  destruct (for_each (rev E) (process_entry config feed_info) w1)
    as [[[[]|e] w2] t]; cbn [fst snd].
  - split; [reflexivity|].
    exists [ActPrint ("Updated: " ++ feed_name feed_info)].
    split; [reflexivity|]. split; reflexivity.
  - split; [reflexivity|].
    exists [ActPrint (what_of e); ActPrint ("Failed: " ++ feed_name feed_info)].
    split; [reflexivity|]. split; reflexivity.
Qed.

End FetchOutcome.

(** * The claims of the specification *)

Section Claims.

Context {World : Type} {collab : Collaborators World}.

Variable config : Config.

(** C1.  Whatever the world and however many turns the fetcher loop makes
    for a feed: the announcements handed to [post_news] are exactly those
    of the inserts that answered "new", one for each and in the same
    order, with the title, URL and date of the insert; every insert is for
    the feed's id; every line sent goes to the channel, and no line is
    sent when no insert answered "new". *)
Theorem announce_only_new_inserts (feed_info : Feed) (turns : nat) (w : World) :
  let tr := trace_of (fetch_feed config turns feed_info) w in
  posts_of tr =
    map (announcement (feed_name feed_info))
        (filter reported_new (inserts_of tr)) /\
  List.length (posts_of tr) =
    List.length (filter reported_new (inserts_of tr)) /\
  Forall (fun i => ins_fid i = feed_id feed_info) (inserts_of tr) /\
  Forall (fun l => line_target l = CHANNEL config) (lines_of tr) /\
  (filter reported_new (inserts_of tr) = [] -> lines_of tr = []).
Proof.
  destruct (fetch_feed_disciplined config feed_info turns w)
    as (H1 & H2 & H3 & H4).
  cbv zeta. repeat split; try assumption.
  - rewrite H1. apply length_map.
  - intros H. apply H4. rewrite H1, H. reflexivity.
Qed.

(** C2.  When the parser delivers the entries [E], one turn of the loop
    takes them in the order of [rev E], oldest first: the inserts it
    makes are, one by one, those of a front part of [rev E], and the
    announcements are those of the new inserts, in that same order.  The
    turn goes through all of [E] unless it is cut short: the [try] block
    ends normally after an insert for every entry, or it raises, and then
    a call of the shortener or an insert raised, or the entry where it
    stopped has no title or no link.  With entries that all have title
    and link, a shortener and a database that never raise, the [try]
    block ends normally and the inserts are those of [rev E], entry by
    entry. *)
Theorem fetch_oldest_first (feed_info : Feed) (w w1 : World) (E : list Entry) :
  feedparser_parse (feed_url feed_info) w = (Ok E, w1) ->
  let tr := trace_of (fetch_once config feed_info) w in
  let ins := inserts_of tr in
  let outcome := result_of (fetch_try config feed_info) w in
  List.length ins <= List.length E /\
  Forall2 (inserted_from feed_info) (firstn (List.length ins) (rev E)) ins /\
  posts_of tr =
    map (announcement (feed_name feed_info)) (filter reported_new ins) /\
  ((outcome = Ok tt /\ List.length ins = List.length E) \/
   (exists x, outcome = Raise x /\
      (existsb call_failed tr = true \/
       exists e, nth_error (rev E) (List.length ins) = Some e /\
                 readable e = false))) /\
  (Forall (fun e => readable e = true) E ->
   (forall l w', is_ok (fst (tinyurl_create_one l w')) = true) ->
   (forall f t u d w', is_ok (fst (db_insert_news f t u d w')) = true) ->
   outcome = Ok tt /\ Forall2 (inserted_from feed_info) (rev E) ins).
Proof.
  intros Hp. cbv zeta.
  destruct (fetch_once_disciplined config feed_info w) as (D1 & _).
  destruct (fetch_once_trace config feed_info w w1 E Hp)
    as (Hr & prints & Ht & Pi & Pc).
  cbv zeta in Hr.
  destruct (entries_loop_outcome config feed_info (rev E) w1)
    as (Hk & HF & Hend).
  assert (Hins : inserts_of (trace_of (fetch_once config feed_info) w) =
                 inserts_of
                   (snd (for_each (rev E) (process_entry config feed_info) w1))).
  { rewrite Ht, !inserts_of_app, Pi, List.app_nil_r. reflexivity. }
  assert (Hc : existsb call_failed (trace_of (fetch_once config feed_info) w) =
               existsb call_failed
                 (snd (for_each (rev E) (process_entry config feed_info) w1))).
  { rewrite Ht, !existsb_app, Pc, orb_false_r. reflexivity. }
  split; [rewrite Hins, <- (length_rev E); exact Hk|].
  split; [rewrite Hins; exact HF|].
  split; [exact D1|].
  split.
  - rewrite Hins, Hr, Hc.
    destruct Hend as [[Ho Hl]|Hbad]; [left | right; exact Hbad].
    split; [exact Ho | now rewrite Hl, length_rev].
  - intros Hread Hs Hi.
    assert (Hok : fst (fst (for_each (rev E) (process_entry config feed_info) w1))
                  = Ok tt).
    { apply entries_loop_complete;
        [apply Forall_rev; exact Hread | exact Hs | exact Hi]. }
    rewrite Hr, Hins. split; [exact Hok|].
    destruct Hend as [[_ Hl]|(x & Hx & _)].
    + rewrite Hl, firstn_all in HF. exact HF.
    + rewrite Hok in Hx. discriminate Hx.
Qed.

(** C3, as amended.  [send_msg] cuts the text at the newlines and each
    line into chunks: joining the lines with newlines gives the text back;
    the chunks of a line, put together, are the line, and there are
    [ceil (length / 510)] of them; every chunk has between 1 and 510
    characters.  [send_msg] never raises.  The lines given to the
    connection are the chunks, in order and for the target: all of them,
    each one taken; or the chunks before number [k], each one taken, and
    then chunk [k], refused -- after a refusal nothing more is sent.  When
    the connection takes whatever chunk of the text it is given, all the
    chunks are sent.  For a text without newline the chunks put together
    are the text, and their number is [ceil (length / 510)], written
    [(length + 509) / 510]. *)
Theorem send_msg_chunks (target text : string) (w : World) :
  let sent := lines_of (trace_of (send_msg target text) w) in
  let chunks := send_chunks text in
  String.concat newline (split_lines text) = text /\
  Forall (fun l =>
            String.concat "" (findall_dots 510 l) = l /\
            List.length (findall_dots 510 l) = (String.length l + 509) / 510)
         (split_lines text) /\
  Forall (fun c => 1 <= String.length c <= 510) chunks /\
  result_of (send_msg target text) w = Ok tt /\
  (sent = taken target chunks \/
   exists k c e,
     nth_error chunks k = Some c /\
     sent = (taken target (firstn k chunks) ++
             [mkLine target c (Raise e)])%list) /\
  ((forall c w', In c chunks ->
      is_ok (fst (connection_privmsg target c w')) = true) ->
   sent = taken target chunks) /\
  (has_newline text = false ->
   String.concat "" chunks = text /\
   List.length chunks = (String.length text + 509) / 510).
Proof.
  cbv zeta. split; [apply join_split_lines|].
  split.
  { eapply Forall_impl; [|apply split_lines_no_newline].
    intros l Hl. apply (findall_dots_single 510 l); [lia | exact Hl]. }
  split.
  { eapply Forall_impl; [|apply send_chunks_bounds]. intros c [H _]. exact H. }
  split; [apply send_msg_result|].
  split; [exact (send_msg_sent target text w)|].
  split; [apply send_msg_all_taken|].
  intros Hs. unfold send_chunks. rewrite (split_lines_single text Hs).
  cbn [flat_map]. rewrite List.app_nil_r.
  apply (findall_dots_single 510 text); [lia | exact Hs].
Qed.

End Claims.

(** A turn with collaborators that never fail: three entries, newest
    first in the document, all of them inserted and announced, oldest
    first. *)
Lemma fetch_oldest_first_witness :
  @feedparser_parse _ Sim2.steady (feed_url Sim.feed1) Sim.w0
    = (Ok [Sim.entry_c; Sim.entry_b; Sim.entry_a], Sim.w0) /\
  Forall (fun e => readable e = true)
    [Sim.entry_c; Sim.entry_b; Sim.entry_a] /\
  result_of (fetch_try (collab := Sim2.steady) Sim.cfg Sim.feed1) Sim.w0
    = Ok tt /\
  Forall2 (inserted_from Sim.feed1) [Sim.entry_a; Sim.entry_b; Sim.entry_c]
    (inserts_of
       (trace_of (fetch_once (collab := Sim2.steady) Sim.cfg Sim.feed1)
          Sim.w0)) /\
  map post_title
    (posts_of
       (trace_of (fetch_once (collab := Sim2.steady) Sim.cfg Sim.feed1)
          Sim.w0))
    = ["First post"; "Second post"; "Third post"].
Proof.
  assert (R : Forall (fun e => readable e = true)
                [Sim.entry_c; Sim.entry_b; Sim.entry_a])
    by (repeat constructor).
  pose proof (fetch_oldest_first (collab := Sim2.steady) Sim.cfg Sim.feed1
                Sim.w0 Sim.w0 [Sim.entry_c; Sim.entry_b; Sim.entry_a] eq_refl)
    as H.
  cbv zeta in H. destruct H as (_ & _ & Hposts & _ & Hall).
  destruct (Hall R (fun l w' => eq_refl) (fun f t u d w' => eq_refl))
    as [Hok Hins].
  split; [reflexivity|]. split; [exact R|]. split; [exact Hok|].
  split; [exact Hins|].
  rewrite Hposts. vm_compute. reflexivity.
Defined.

(** C3, as stated: a connection that keeps to the line limit of IRC
    refuses the first chunk of a line of 1025 characters, which has 510 of
    them, and [send_msg] stops there.  One line reaches the connection and
    none is taken, where the claim has three. *)
Lemma send_msg_stops_at_refusal :
  has_newline Sim.long_line = false /\
  String.length Sim.long_line = 1025 /\
  (String.length Sim.long_line + 509) / 510 = 3 /\
  lines_of
    (trace_of (send_msg (collab := Sim2.strict) "#news" Sim.long_line) Sim.w0)
  = [mkLine "#news" (Sim.repeat_string 102 "abcde")
       (Raise (Exception
          "MessageTooLong: Messages limited to 512 bytes including CR/LF"))] /\
  List.length
    (lines_of
       (trace_of (send_msg (collab := Sim2.strict) "#news" Sim.long_line)
          Sim.w0))
  <> (String.length Sim.long_line + 509) / 510.
Proof.
  split; [vm_compute; reflexivity|]. split; [vm_compute; reflexivity|].
  split; [vm_compute; reflexivity|]. split; [vm_compute; reflexivity|].
  vm_compute. discriminate.
Qed.

(** A line of 1025 characters on a connection that takes every line: it
    goes out as three lines, which put together are the text. *)
Lemma send_msg_chunks_witness :
  has_newline Sim.long_line = false /\
  (forall c w', In c (send_chunks Sim.long_line) ->
     is_ok (fst (@connection_privmsg _ Sim2.steady "#news" c w')) = true) /\
  lines_of
    (trace_of (send_msg (collab := Sim2.steady) "#news" Sim.long_line) Sim.w0)
  = taken "#news" (send_chunks Sim.long_line) /\
  String.concat "" (send_chunks Sim.long_line) = Sim.long_line /\
  List.length (send_chunks Sim.long_line) = 3.
Proof.
  pose proof (send_msg_chunks (collab := Sim2.steady) "#news" Sim.long_line
                Sim.w0) as H.
  cbv zeta in H. destruct H as (_ & _ & _ & _ & _ & Hall & Hone).
  assert (Hn : has_newline Sim.long_line = false) by (vm_compute; reflexivity).
  assert (Ha : forall c w', In c (send_chunks Sim.long_line) ->
                 is_ok (fst (@connection_privmsg _ Sim2.steady "#news" c w'))
                 = true)
    by (intros c w' _; reflexivity).
  destruct (Hone Hn) as [Hc Hl].
  split; [exact Hn|]. split; [exact Ha|]. split; [exact (Hall Ha)|].
  split; [exact Hc|]. rewrite Hl. vm_compute. reflexivity.
Defined.

Section ClaimsHandlers.

Context {World : Type} {collab : Collaborators World}.

Variable config : Config.

(** C4.  [__handle_msg] always returns an answer: no exception leaves it.
    When its [try] block raises, the answer is "Something went wrong :(";
    in particular this is the answer whenever a call of the database
    raised. *)
Theorem handle_msg_catches (msg : string) (w : World) :
  (exists answer, result_of (handle_msg msg) w = Ok answer) /\
  (forall e, result_of (handle_msg_try msg) w = Raise e ->
             result_of (handle_msg msg) w = Ok something_went_wrong) /\
  (existsb gateway_failed (trace_of (handle_msg msg) w) = true ->
   result_of (handle_msg msg) w = Ok something_went_wrong).
Proof.
  split; [apply handle_msg_returns|]. split.
  - intros e. apply handle_msg_caught.
  - rewrite handle_msg_gateway_calls. intros H.
    destruct (handle_msg_try_gateway msg w H) as [e He].
    exact (handle_msg_caught msg w e He).
Qed.

(** C6.  For every entry the nested [try] yields the date of the rule:
    the published timestamp if there is one, else the updated one if there
    is one, else "no date".  Every insert and every announcement made for
    the entry carries that date, and when the entry has a title and a link
    and the shortener answers, there is exactly one insert. *)
Theorem entry_date_rule (feed_info : Feed) (e : Entry) (w : World) :
  let tr := trace_of (process_entry config feed_info e) w in
  entry_date e w = (Ok (date_rule e), w, []) /\
  Forall (fun i => ins_date i = date_rule e) (inserts_of tr) /\
  Forall (fun p => post_date p = date_rule e) (posts_of tr) /\
  (forall t l u w1,
     title e = Some t -> link e = Some l ->
     tinyurl_create_one l w = (Ok u, w1) ->
     exists r,
       inserts_of tr =
       [mkInsert (feed_id feed_info) t (chosen_url l u) (date_rule e) r]).
Proof.
  cbv zeta. split; [apply entry_date_run|].
  assert (HI : Forall (fun i => ins_date i = date_rule e)
                 (inserts_of (trace_of (process_entry config feed_info e) w))
               /\
               (forall t l u w1,
                  title e = Some t -> link e = Some l ->
                  tinyurl_create_one l w = (Ok u, w1) ->
                  exists r,
                    inserts_of (trace_of (process_entry config feed_info e) w) =
                    [mkInsert (feed_id feed_info) t (chosen_url l u)
                       (date_rule e) r])).
  { unfold trace_of. rewrite process_entry_run.
    destruct (title e) as [t|];
      [|cbn; split; [constructor | intros; discriminate]].
    destruct (link e) as [l|];
      [|cbn; split; [constructor | intros; discriminate]].
    destruct (tinyurl_create_one l w) as [[u|x] w1] eqn:Hw.
    2:{ cbn. split; [constructor|].
        intros t' l' u' w1' Ht Hl Hs. injection Hl as <-.
        rewrite Hw in Hs. discriminate. }
    cbv zeta.
    assert (K : forall r tr,
              inserts_of tr = [] ->
              Forall (fun i => ins_date i = date_rule e)
                (inserts_of
                   (ActShorten l (Ok u)
                    :: ActInsert (feed_id feed_info) t (chosen_url l u)
                         (date_rule e) r :: tr)) /\
              (forall t' l' u' w1',
                 Some t = Some t' -> Some l = Some l' ->
                 tinyurl_create_one l' w = (Ok u', w1') ->
                 exists r',
                   inserts_of
                     (ActShorten l (Ok u)
                      :: ActInsert (feed_id feed_info) t (chosen_url l u)
                           (date_rule e) r :: tr) =
                   [mkInsert (feed_id feed_info) t' (chosen_url l' u')
                      (date_rule e) r'])).
    { intros r tr Htr. cbn. fold (inserts_of tr). rewrite Htr. split.
      - repeat constructor.
      - intros t' l' u' w1' Ht Hl Hs.
        injection Ht as <-. injection Hl as <-.
        rewrite Hw in Hs. injection Hs as <- _.
        exists r. reflexivity. }
    destruct (db_insert_news (feed_id feed_info) t (chosen_url l u)
                (date_rule e) w1) as [[[|]|x] w2].
    - destruct (post_news_run config (feed_name feed_info) t (chosen_url l u)
                  (date_rule e) w2) as (w3 & tr & E & I1 & I2 & _).
      rewrite E. cbn [snd].
      apply (K (Ok true) (ActPostNews (feed_name feed_info) t (chosen_url l u)
                            (date_rule e) :: tr)).
      cbn. exact I1.
    - cbn [snd]. apply (K (Ok false) []). reflexivity.
    - cbn [snd]. apply (K (Raise x) []). reflexivity. }
  destruct HI as [HI1 HI2]. split; [exact HI1|]. split; [|exact HI2].
  destruct (process_entry_disciplined config feed_info e w) as (D1 & _).
  rewrite D1. apply Forall_map.
  eapply Forall_impl; [|apply (incl_Forall (incl_filter _ _) HI1)].
  intros i Hi. exact Hi.
Qed.



(** C9, as amended.  On a "nickname in use" event the handler makes one
    call, a rename request for the nickname the connection reports
    followed by "_".  So does a second event in a row, with the nickname
    the connection reports by then: when this is the nickname asked for
    first, the second request is for the original nickname followed by
    "__"; when it is still the original nickname, the second request is
    the first one again. *)
Theorem nicknameinuse_appends_suffix (w : World) :
  let first := trace_of on_nicknameinuse w in
  let w1 := world_of on_nicknameinuse w in
  let second := trace_of on_nicknameinuse w1 in
  nicks_of first = [connection_get_nickname w ++ "_"] /\
  List.length first = 1 /\
  nicks_of second = [connection_get_nickname w1 ++ "_"] /\
  List.length second = 1 /\
  (connection_get_nickname w1 = connection_get_nickname w ++ "_" ->
   nicks_of second = [connection_get_nickname w ++ "_" ++ "_"]) /\
  (connection_get_nickname w1 = connection_get_nickname w ->
   nicks_of second = nicks_of first).
Proof.
  cbv zeta. unfold trace_of, world_of. rewrite !on_nicknameinuse_run.
  cbn [fst snd nicks_of flat_map List.length List.app].
  split; [reflexivity|]. split; [reflexivity|]. split; [reflexivity|].
  split; [reflexivity|].
  split; intros H; rewrite H; [now rewrite app_assoc | reflexivity].
Qed.

(** C10.  An event without arguments: both message handlers return at
    once, leave the world as it is and call nobody. *)
Theorem empty_arguments_ignored (event : Event) (w : World) :
  arguments event = [] ->
  on_privmsg event w = (Ok tt, w, []) /\
  on_pubmsg event w = (Ok tt, w, []).
Proof.
  intros H. unfold on_privmsg, on_pubmsg. rewrite H. split; reflexivity.
Qed.

End ClaimsHandlers.

(** ** The shortener: the marker and the exception *)

Section Shortener.

Context {World : Type} {collab : Collaborators World}.

Variable config : Config.

(** The marker "Error": the entry is inserted with its own link. *)
Lemma process_entry_marker (feed_info : Feed) (e : Entry) (w w1 : World)
    (t l : string) :
  title e = Some t -> link e = Some l ->
  tinyurl_create_one l w = (Ok "Error", w1) ->
  exists r,
    inserts_of (trace_of (process_entry config feed_info e) w) =
    [mkInsert (feed_id feed_info) t l (date_rule e) r].
Proof.
  intros Ht Hl Hs. unfold trace_of. rewrite process_entry_run, Ht, Hl, Hs.
  cbv zeta. change (chosen_url l "Error") with l.
  destruct (db_insert_news (feed_id feed_info) t l (date_rule e) w1)
    as [[[|]|x] w2]; try (eexists; reflexivity).
  destruct (post_news_run config (feed_name feed_info) t l (date_rule e) w2)
    as (w3 & tr & E & I1 & _).
  rewrite E. cbn. fold (inserts_of tr). rewrite I1. eexists. reflexivity.
Qed.

(** An exception of the shortener leaves the loop body at once: the entry
    is not inserted. *)
Lemma process_entry_shortener_raises (feed_info : Feed) (e : Entry)
    (w w1 : World) (t l : string) (x : exn) :
  title e = Some t -> link e = Some l ->
  tinyurl_create_one l w = (Raise x, w1) ->
  process_entry config feed_info e w = (Raise x, w1, [ActShorten l (Raise x)]).
Proof.
  intros Ht Hl Hs. rewrite process_entry_run, Ht, Hl, Hs. reflexivity.
Qed.

End Shortener.

(** C5.  The shortener raises: the turn asks it for the oldest entry's
    link, the exception ends the [try] block, and nothing is inserted or
    announced for any of the three entries.  With the marker "Error"
    instead, the three entries are inserted with their own links. *)
Theorem shortener_exception_aborts_turn :
  trace_of (fetch_once Sim.cfg Sim.feed1) Sim.w_raises =
    [ActParse "http://planet.example.org/rss"
       (Ok [Sim.entry_c; Sim.entry_b; Sim.entry_a]);
     ActShorten "http://planet.example.org/1"
       (Raise (Exception "IOError: tinyurl unreachable"));
     ActPrint "IOError: tinyurl unreachable";
     ActPrint "Failed: Planet"] /\
  inserts_of (trace_of (fetch_once Sim.cfg Sim.feed1) Sim.w_raises) = [] /\
  map ins_url (inserts_of (trace_of (fetch_once Sim.cfg Sim.feed1) Sim.w_marker))
    = ["http://planet.example.org/1"; "http://planet.example.org/2";
       "http://planet.example.org/3"].
Proof. repeat split; vm_compute; reflexivity. Qed.


(** ** The theorems at work on the simulated world *)

(** Nothing is new: three inserts, no announcement, no line. *)
Lemma announce_only_new_inserts_witness :
  filter reported_new
    (inserts_of (trace_of (fetch_feed Sim.cfg 2 Sim.feed1) Sim.w_seen)) = [] /\
  List.length
    (inserts_of (trace_of (fetch_feed Sim.cfg 2 Sim.feed1) Sim.w_seen)) = 6 /\
  lines_of (trace_of (fetch_feed Sim.cfg 2 Sim.feed1) Sim.w_seen) = [].
Proof.
  pose proof (announce_only_new_inserts Sim.cfg Sim.feed1 2 Sim.w_seen) as H.
  cbv zeta in H. destruct H as (_ & _ & _ & _ & H).
  assert (E : filter reported_new
                (inserts_of (trace_of (fetch_feed Sim.cfg 2 Sim.feed1) Sim.w_seen))
              = []) by (vm_compute; reflexivity).
  split; [exact E|]. split; [vm_compute; reflexivity | exact (H E)].
Defined.

(** The database is down: "!stats" is answered with the fixed text. *)
Lemma handle_msg_catches_witness :
  existsb gateway_failed (trace_of (handle_msg "!stats") Sim.w_db_down) = true /\
  result_of (handle_msg "!stats") Sim.w_db_down = Ok something_went_wrong.
Proof.
  destruct (handle_msg_catches "!stats" Sim.w_db_down) as (_ & _ & H).
  split; [reflexivity | apply H; reflexivity].
Defined.

(** An entry with an updated timestamp only. *)
Lemma entry_date_rule_witness :
  title Sim.entry_b = Some "Second post" /\
  link Sim.entry_b = Some "http://planet.example.org/2" /\
  tinyurl_create_one "http://planet.example.org/2" Sim.w0
    = (Ok "http://tinyurl.com/2", Sim.w0) /\
  exists r,
    inserts_of (trace_of (process_entry Sim.cfg Sim.feed1 Sim.entry_b) Sim.w0) =
    [mkInsert 1 "Second post" "http://tinyurl.com/2" "Tue, 02 Jan 2024" r].
Proof.
  destruct (entry_date_rule Sim.cfg Sim.feed1 Sim.entry_b Sim.w0)
    as (_ & _ & _ & H).
  repeat split.
  exact (H "Second post" "http://planet.example.org/2" "http://tinyurl.com/2"
           Sim.w0 eq_refl eq_refl eq_refl).
Defined.



(** C9, as stated: on a session that reports a new nickname only once
    the server has confirmed it, two collisions in a row ask for "rssbot_"
    twice; "rssbot__" is never asked for. *)
Lemma nicknameinuse_same_request_twice :
  nicks_of (trace_of (on_nicknameinuse (collab := Sim2.pending)) Sim.w0)
  = ["rssbot_"] /\
  nicks_of
    (trace_of (on_nicknameinuse (collab := Sim2.pending))
       (world_of (on_nicknameinuse (collab := Sim2.pending)) Sim.w0))
  = ["rssbot_"] /\
  nicks_of
    (trace_of (on_nicknameinuse (collab := Sim2.pending))
       (world_of (on_nicknameinuse (collab := Sim2.pending)) Sim.w0))
  <> ["rssbot__"].
Proof.
  split; [vm_compute; reflexivity|]. split; [vm_compute; reflexivity|].
  vm_compute. discriminate.
Qed.

(** Two collisions in a row.  On a session that reports the nickname last
    asked for: "rssbot_", then "rssbot__".  On a session that still
    reports "rssbot": "rssbot_" twice. *)
Lemma nicknameinuse_appends_suffix_witness :
  (connection_get_nickname (world_of on_nicknameinuse Sim.w0)
   = connection_get_nickname Sim.w0 ++ "_" /\
   nicks_of (trace_of on_nicknameinuse Sim.w0) = ["rssbot_"] /\
   nicks_of (trace_of on_nicknameinuse (world_of on_nicknameinuse Sim.w0))
   = ["rssbot__"]) /\
  (@connection_get_nickname _ Sim2.pending
     (world_of (on_nicknameinuse (collab := Sim2.pending)) Sim.w0)
   = @connection_get_nickname _ Sim2.pending Sim.w0 /\
   nicks_of
     (trace_of (on_nicknameinuse (collab := Sim2.pending))
        (world_of (on_nicknameinuse (collab := Sim2.pending)) Sim.w0))
   = ["rssbot_"]).
Proof.
  split.
  - destruct (nicknameinuse_appends_suffix Sim.w0)
      as (H1 & _ & _ & _ & H2 & _).
    split; [reflexivity|]. split; [exact H1 | exact (H2 eq_refl)].
  - destruct (nicknameinuse_appends_suffix (collab := Sim2.pending) Sim.w0)
      as (H1 & _ & _ & _ & _ & H3).
    split; [reflexivity|]. rewrite (H3 eq_refl). exact H1.
Defined.

(** An event without arguments. *)
Lemma empty_arguments_ignored_witness :
  arguments (mkEvent [] "alice") = [] /\
  on_privmsg (mkEvent [] "alice") Sim.w0 = (Ok tt, Sim.w0, []) /\
  on_pubmsg (mkEvent [] "alice") Sim.w0 = (Ok tt, Sim.w0, []).
Proof.
  split; [reflexivity|].
  exact (empty_arguments_ignored (mkEvent [] "alice") Sim.w0 eq_refl).
Defined.

(** * Further properties of [bot.py] *)

(** ** [send_msg]: the shape of what it does *)

Section Extras.

Context {World : Type} {collab : Collaborators World}.

Variable config : Config.

(** X1.  [send_msg] never lets an exception out.  Either it gives every
    chunk of the text to the connection, each followed by a pause of one
    second and nothing else; or the connection refuses chunk number [k]:
    the chunks before it were taken and paced, the refused one is followed
    by the console output of the exception and by nothing more. *)
Theorem send_msg_shape (target msg : string) (w : World) :
  result_of (send_msg target msg) w = Ok tt /\
  (trace_of (send_msg target msg) w = paced target (send_chunks msg) \/
   exists k c e,
     nth_error (send_chunks msg) k = Some c /\
     trace_of (send_msg target msg) w =
       (paced target (firstn k (send_chunks msg)) ++
        [ActPrivmsg target c (Raise e); ActPrint (what_of e)])%list).
Proof.
  split; [apply send_msg_result|].
  unfold send_msg, trace_of, try_except.
  rewrite for_each_flat_map. fold (send_chunks msg).
  pose proof (chunk_loop_shape target (send_chunks msg) w) as H.
  cbv zeta in H.
  destruct (for_each (send_chunks msg) _ w) as [[r w1] t]. cbn [fst snd] in H.
  destruct H as [[Hr Ht]|(k & c & e & Hn & Hr & Ht)]; subst.
  - left. reflexivity.
  - right. exists k, c, e. split; [exact Hn|].
    cbn. rewrite <- List.app_assoc. reflexivity.
Qed.

Lemma concat_empty_cons (x : string) (xs : list string) :
  String.concat "" (x :: xs) = x ++ String.concat "" xs.
Proof. destruct xs; simpl; [now rewrite app_empty_r | reflexivity]. Qed.

Lemma concat_empty_app (a b : list string) :
  String.concat "" (a ++ b)%list = String.concat "" a ++ String.concat "" b.
Proof.
  induction a as [|x a IH]; [reflexivity|].
  change ((x :: a) ++ b)%list with (x :: (a ++ b)%list).
  rewrite !concat_empty_cons, IH, app_assoc. reflexivity.
Qed.

Lemma concat_split_lines (s : string) :
  String.concat "" (split_lines s) = remove_newlines s.
Proof.
  induction s as [|c s IH]; [reflexivity|].
  cbn [split_lines remove_newlines].
  pose proof (split_lines_not_nil s) as Hne.
  destruct (split_lines s) as [|l ls]; [contradiction|].
  destruct (is_newline c).
  - rewrite concat_empty_cons. exact IH.
  - rewrite concat_empty_cons in *. cbn [append]. now rewrite IH.
Qed.

(** X2.  Put together, the chunks of a text are the text without its
    newlines: splitting loses nothing else, whatever the number and the
    length of the lines. *)
Theorem send_chunks_concat (msg : string) :
  String.concat "" (send_chunks msg) = remove_newlines msg.
Proof.
  rewrite <- concat_split_lines. unfold send_chunks.
  pose proof (split_lines_no_newline msg) as H.
  induction H as [|l ls Hl _ IH]; [reflexivity|].
  cbn [flat_map]. rewrite concat_empty_app, concat_empty_cons, IH.
  f_equal. apply (findall_dots_single 510 l); [lia | exact Hl].
Qed.

(** X3.  An announcement of one line and at most 510 characters, taken by
    the connection: [post_news] gives the connection exactly that line,
    for the channel, and pauses one second. *)
Theorem post_news_one_line (fname ntitle nurl ndate : string) (w w1 : World) :
  let text := announcement_text fname ntitle nurl ndate in
  has_newline text = false ->
  String.length text <= 510 ->
  connection_privmsg (CHANNEL config) text w = (Ok tt, w1) ->
  post_news config fname ntitle nurl ndate w =
  (Ok tt, w1,
   [ActPostNews fname ntitle nurl ndate;
    ActPrivmsg (CHANNEL config) text (Ok tt);
    ActSleep 1]).
Proof.
  cbv zeta. intros Hn Hl Hc.
  assert (L1 : 1 <= String.length (announcement_text fname ntitle nurl ndate)).
  { unfold announcement_text. rewrite !length_app. cbn [String.length]. lia. }
  unfold post_news. rewrite bind_run. cbn [log].
  fold (announcement_text fname ntitle nurl ndate).
  unfold try_except at 1. unfold send_msg, try_except.
  rewrite (split_lines_single _ Hn). cbn [for_each].
  rewrite (findall_dots_one 510 _ Hn (conj L1 Hl)). cbn [for_each].
  rewrite bind_run, bind_run, send_step_run, Hc. reflexivity.
Qed.

End Extras.

(** ** The fetcher: failures, and what a turn costs *)

Section FetchInvariant.

Context {World : Type} {collab : Collaborators World}.

Variable config : Config.
Variable P : list action -> Prop.
Hypothesis P_nil : P [].
Hypothesis P_app : forall a b, P a -> P b -> P (a ++ b)%list.
Hypothesis P_shorten : forall u r, P [ActShorten u r].
Hypothesis P_insert : forall f t u d r, P [ActInsert f t u d r].
Hypothesis P_post : forall f t u d, P [ActPostNews f t u d].
Hypothesis P_line : forall x r, P [ActPrivmsg (CHANNEL config) x r].
Hypothesis P_sleep : P [ActSleep 1].
Hypothesis P_print : forall s, P [ActPrint s].


End FetchInvariant.

Section FetchExtras.

Context {World : Type} {collab : Collaborators World}.

Variable config : Config.
Variable feed_info : Feed.


Lemma shortens_of_app (a b : list action) :
  shortens_of (a ++ b)%list = (shortens_of a ++ shortens_of b)%list.
Proof. apply flat_map_app. Qed.






(** One entry: at most one call of the shortener and one insert; when the
    loop body ends normally, exactly one of each, the shortener being
    asked for the entry's link. *)
Lemma process_entry_counts (e : Entry) (w : World) :
  let out := process_entry config feed_info e w in
  List.length (shortens_of (snd out)) <= 1 /\
  List.length (inserts_of (snd out)) <= 1 /\
  (fst (fst out) = Ok tt ->
   map Some (shortens_of (snd out)) = [link e] /\
   List.length (inserts_of (snd out)) = 1).
Proof.
  cbv zeta. rewrite process_entry_run.
  destruct (title e) as [t|]; [|cbn; repeat split; auto; discriminate].
  destruct (link e) as [l|]; [|cbn; repeat split; auto; discriminate].
  destruct (tinyurl_create_one l w) as [[u|x] w1];
    [|cbn; repeat split; auto; discriminate].
  cbv zeta.
  destruct (db_insert_news (feed_id feed_info) t (chosen_url l u) (date_rule e) w1)
    as [[[|]|x] w2].
  - destruct (post_news_run config (feed_name feed_info) t (chosen_url l u)
                (date_rule e) w2) as (w3 & tr & E & I1 & _).
    assert (S0 : shortens_of tr = []).
    { pose proof (always_send_msg (fun tr => shortens_of tr = []) eq_refl
                    (fun a b Ha Hb =>
                       eq_trans (shortens_of_app a b)
                         (f_equal2 (@List.app _) Ha Hb))
                    (CHANNEL config)
                    (announcement_text (feed_name feed_info) t (chosen_url l u)
                       (date_rule e))
                    (fun _ _ => eq_refl) eq_refl (fun _ => eq_refl) w2) as Hs.
      unfold post_news in E. rewrite bind_run in E. cbn [log] in E.
      fold (announcement_text (feed_name feed_info) t (chosen_url l u)
              (date_rule e)) in E.
      unfold try_except at 1 in E. unfold trace_of in Hs.
      pose proof (send_msg_result (CHANNEL config)
                    (announcement_text (feed_name feed_info) t (chosen_url l u)
                       (date_rule e)) w2) as Hr.
      unfold result_of in Hr.
      destruct (send_msg (CHANNEL config) _ w2) as [[r w4] tr'].
      cbn [fst snd] in Hs, Hr. subst r. cbn in E.
      injection E as _ <-. exact Hs. }
    rewrite E. cbn. fold (shortens_of tr) (inserts_of tr).
    rewrite S0, I1. cbn. repeat split; auto.
  - cbn. repeat split; auto.
  - cbn. repeat split; auto; discriminate.
Qed.

Lemma entries_loop_counts (es : list Entry) (w : World) :
  let out := for_each es (process_entry config feed_info) w in
  List.length (shortens_of (snd out)) <= List.length es /\
  List.length (inserts_of (snd out)) <= List.length es /\
  (fst (fst out) = Ok tt ->
   map Some (shortens_of (snd out)) = map link es /\
   List.length (inserts_of (snd out)) = List.length es).
Proof.
  revert w; induction es as [|e es IH]; intros w; cbv zeta.
  - cbn. repeat split; auto.
  - cbn [for_each]. rewrite bind_run.
    pose proof (process_entry_counts e w) as H. cbv zeta in H.
    destruct (process_entry config feed_info e w) as [[[[]|x] w1] t].
    + cbn [fst snd] in H. destruct H as (H1 & H2 & H3).
      destruct (H3 eq_refl) as [H4 H5].
      specialize (IH w1). cbv zeta in IH.
      destruct (for_each es _ w1) as [[r2 w2] t2]. cbn [fst snd] in *.
      destruct IH as (J1 & J2 & J3).
      rewrite shortens_of_app, inserts_of_app, !List.length_app, map_app.
      cbn [List.length map].
      split; [lia|]. split; [lia|]. intros Hr.
      destruct (J3 Hr) as [J4 J5]. rewrite H4, J4, H5, J5. split; reflexivity.
    + cbn [fst snd List.length] in *. destruct H as (H1 & H2 & _).
      split; [lia|]. split; [lia|]. discriminate.
Qed.

End FetchExtras.

Section TurnExtras.

Context {World : Type} {collab : Collaborators World}.

Variable config : Config.
Variable feed_info : Feed.

(** An entry without title or link makes the loop body raise at once. *)
Lemma process_entry_unreadable (e : Entry) (w : World) :
  readable e = false ->
  exists x, process_entry config feed_info e w = (Raise x, w, []).
Proof.
  intros H. rewrite process_entry_run. unfold readable in H.
  destruct (title e) as [t|]; [|eexists; reflexivity].
  destruct (link e) as [l|]; [discriminate | eexists; reflexivity].
Qed.

(** What one turn shows of the loop over the entries [E]. *)
Lemma fetch_once_loop (w w1 : World) (E : list Entry) :
  feedparser_parse (feed_url feed_info) w = (Ok E, w1) ->
  let out := for_each (rev E) (process_entry config feed_info) w1 in
  result_of (fetch_try config feed_info) w = fst (fst out) /\
  shortens_of (trace_of (fetch_once config feed_info) w)
    = shortens_of (snd out) /\
  inserts_of (trace_of (fetch_once config feed_info) w)
    = inserts_of (snd out).
Proof.
  intros Hp. cbv zeta.
  unfold result_of, trace_of, fetch_once, try_except, fetch_try.
  rewrite bind_run. unfold feedparser_parse_, call. rewrite Hp.
  rewrite bind_run.
  destruct (for_each (rev E) (process_entry config feed_info) w1)
    as [[[[]|e] w2] t]; cbn.
  - fold (shortens_of (t ++ [ActPrint ("Updated: " ++ feed_name feed_info)]))
         (inserts_of (t ++ [ActPrint ("Updated: " ++ feed_name feed_info)])).
    rewrite shortens_of_app, inserts_of_app. cbn.
    now rewrite !List.app_nil_r.
  - fold (shortens_of (t ++ [ActPrint (what_of e);
                             ActPrint ("Failed: " ++ feed_name feed_info)]))
         (inserts_of (t ++ [ActPrint (what_of e);
                            ActPrint ("Failed: " ++ feed_name feed_info)])).
    rewrite shortens_of_app, inserts_of_app. cbn.
    now rewrite !List.app_nil_r.
Qed.

(** X6.  An entry without title or link stops the turn where it stands:
    the [try] block raises, and of the document [newer ++ bad :: older]
    only entries of [older] can have reached the shortener or the
    database; the entries listed before the bad one are skipped. *)
Theorem unreadable_entry_stops_turn (w w1 : World)
    (newer older : list Entry) (bad : Entry) :
  feedparser_parse (feed_url feed_info) w = (Ok (newer ++ bad :: older)%list, w1) ->
  readable bad = false ->
  (exists x, result_of (fetch_try config feed_info) w = Raise x) /\
  List.length (shortens_of (trace_of (fetch_once config feed_info) w))
    <= List.length older /\
  List.length (inserts_of (trace_of (fetch_once config feed_info) w))
    <= List.length older.
Proof.
  intros Hp Hb.
  destruct (fetch_once_loop w w1 _ Hp) as (Hr & Hs & Hi).
  rewrite Hr, Hs, Hi. clear Hr Hs Hi.
  rewrite rev_app_distr. cbn [rev]. rewrite <- List.app_assoc. cbn [List.app].
  rewrite for_each_app, bind_run.
  pose proof (entries_loop_counts config feed_info (rev older) w1) as H.
  cbv zeta in H. rewrite length_rev in H.
  destruct (for_each (rev older) (process_entry config feed_info) w1)
    as [[[[]|x] w2] t]; cbn [fst snd] in H; destruct H as (H1 & H2 & _).
  - cbn [for_each]. rewrite bind_run.
    destruct (process_entry_unreadable bad w2 Hb) as [x Hx]. rewrite Hx.
    cbn [fst snd]. rewrite List.app_nil_r.
    split; [now exists x|]. split; assumption.
  - cbn [fst snd]. split; [now exists x|]. split; assumption.
Qed.

(** X7.  A turn that ends without an exception has asked the shortener
    for the link of every entry of the document, oldest first, and has
    made one insert per entry, whether the entries were new or not. *)
Theorem turn_shortens_every_entry (w w1 : World) (E : list Entry) :
  feedparser_parse (feed_url feed_info) w = (Ok E, w1) ->
  result_of (fetch_try config feed_info) w = Ok tt ->
  map Some (shortens_of (trace_of (fetch_once config feed_info) w))
    = map link (rev E) /\
  List.length (inserts_of (trace_of (fetch_once config feed_info) w))
    = List.length E.
Proof.
  intros Hp Hok.
  destruct (fetch_once_loop w w1 _ Hp) as (Hr & Hs & Hi).
  rewrite Hs, Hi. rewrite Hr in Hok.
  pose proof (entries_loop_counts config feed_info (rev E) w1) as H.
  cbv zeta in H. destruct H as (_ & _ & H).
  destruct (H Hok) as [H1 H2]. rewrite length_rev in H2. now split.
Qed.

End TurnExtras.

(** ** The chat side: what the handlers do and never do *)

Section HandlerInvariant.

Context {World : Type} {collab : Collaborators World}.

Variable P : list action -> Prop.
Hypothesis P_nil : P [].
Hypothesis P_app : forall a b, P a -> P b -> P (a ++ b)%list.
Hypothesis P_feeds : forall r, P [ActGetFeeds r].
Hypothesis P_feeds_count : forall r, P [ActFeedsCount r].
Hypothesis P_news_count : forall r, P [ActNewsCount r].
Hypothesis P_latest : forall r, P [ActLatestNews r].
Hypothesis P_from_feed : forall n r, P [ActNewsFromFeed n r].
Hypothesis P_print : forall s, P [ActPrint s].

(** A property kept by the reading calls of the database and by console
    output is kept by [__handle_msg]. *)
Lemma always_handle_msg (msg : string) : always P (handle_msg msg).
Proof.
  unfold handle_msg. apply always_try; try assumption.
  - unfold handle_msg_try.
    destruct (msg =? "!help"); [now apply always_help_msg|].
    destruct (msg =? "!list").
    { apply always_bind; try assumption.
      - now apply always_call.
      - intros a. now apply always_ret. }
    destruct (msg =? "!stats").
    { apply always_bind; try assumption.
      - now apply always_call.
      - intros a. apply always_bind; try assumption.
        + now apply always_call.
        + intros b. now apply always_ret. }
    destruct (msg =? "!last").
    { apply always_bind; try assumption.
      - now apply always_call.
      - intros a. now apply always_ret. }
    destruct (startswith msg "!lastfeed"); [|now apply always_help_msg].
    destruct (py_int (strip (replace msg "!lastfeed" ""))) as [n|];
      [|now apply always_ret].
    apply always_bind; try assumption.
    + apply always_call. intros r. apply P_from_feed.
    + intros a. now apply always_ret.
  - intros e. apply always_bind; try assumption.
    + now apply always_log.
    + intros _. now apply always_ret.
Qed.

End HandlerInvariant.

Section HandlerExtras.

Context {World : Type} {collab : Collaborators World}.


(** The answers are built by appending one line per row. *)
Lemma accumulate_concat {A : Type} (line : A -> string) (rows : list A) :
  accumulate line rows = String.concat "" (map line rows).
Proof.
  unfold accumulate.
  assert (G : forall acc,
             fold_left (fun answer entry => answer ++ line entry) rows acc =
             acc ++ String.concat "" (map line rows)).
  { induction rows as [|r rows IH]; intros acc.
    - cbn. now rewrite app_empty_r.
    - cbn [fold_left map]. rewrite IH, concat_empty_cons, app_assoc.
      reflexivity. }
  apply (G "").
Qed.



(** X9.  "!stats": the feeds are counted, then the news; the answer is
    "Feeds: <n>, News: <m>".  When the first count raises the second is
    not asked for, and either failure gives the fixed answer after the
    exception went to the console. *)
Theorem stats_reply (w : World) :
  match db_get_feeds_count w with
  | (Ok n, w1) =>
      match db_get_news_count w1 with
      | (Ok m, w2) =>
          handle_msg "!stats" w =
          (Ok ("Feeds: " ++ str_of_int n ++ ", News: " ++ str_of_int m), w2,
           [ActFeedsCount (Ok n); ActNewsCount (Ok m)])
      | (Raise e, w2) =>
          handle_msg "!stats" w =
          (Ok something_went_wrong, w2,
           [ActFeedsCount (Ok n); ActNewsCount (Raise e); ActPrint (what_of e)])
      end
  | (Raise e, w1) =>
      handle_msg "!stats" w =
      (Ok something_went_wrong, w1,
       [ActFeedsCount (Raise e); ActPrint (what_of e)])
  end.
Proof.
  unfold handle_msg, try_except, handle_msg_try.
  change ("!stats" =? "!help") with false.
  change ("!stats" =? "!list") with false.
  change ("!stats" =? "!stats") with true. cbv iota.
  rewrite bind_run. unfold get_feeds_count, call.
  destruct (db_get_feeds_count w) as [[n|e] w1]; [|reflexivity].
  rewrite bind_run. unfold get_news_count, call.
  destruct (db_get_news_count w1) as [[m|e] w2]; reflexivity.
Qed.

(** "!lastfeed <n>" with a number. *)
Lemma handle_msg_lastfeed (msg : string) (n : Z) (rows : list NewsRow)
    (w w1 : World) :
  startswith msg "!lastfeed" = true ->
  py_int (strip (replace msg "!lastfeed" "")) = Some n ->
  db_get_news_from_feed n w = (Ok rows, w1) ->
  handle_msg msg w =
  (Ok (String.concat "" (map news_line (rev rows))), w1,
   [ActNewsFromFeed n (Ok rows)]).
Proof.
  intros Hp Hi Hd. unfold handle_msg, try_except, handle_msg_try.
  rewrite Hp, Hi. destruct (prefix_split _ _ Hp) as [r ->].
  change ("!lastfeed" ++ r =? "!help") with false.
  change ("!lastfeed" ++ r =? "!list") with false.
  change ("!lastfeed" ++ r =? "!stats") with false.
  change ("!lastfeed" ++ r =? "!last") with false. cbv iota.
  rewrite bind_run. unfold get_news_from_feed, call. rewrite Hd.
  cbn [ret]. rewrite accumulate_concat. reflexivity.
Qed.

(** X10.  "!lastfeed <n>" with a number: one call of the database, for
    feed [n]; the answer is one line per row, "#<id>: <title>, <url>,
    <date>", the rows taken in the reverse of the order the database gave
    them. *)
Theorem lastfeed_reply (msg : string) (n : Z) (rows : list NewsRow)
    (w w1 : World) :
  startswith msg "!lastfeed" = true ->
  py_int (strip (replace msg "!lastfeed" "")) = Some n ->
  db_get_news_from_feed n w = (Ok rows, w1) ->
  handle_msg msg w =
  (Ok (String.concat "" (map news_line (rev rows))), w1,
   [ActNewsFromFeed n (Ok rows)]).
Proof.
  intros Hp Hi Hd. unfold handle_msg, try_except, handle_msg_try.
  rewrite Hp, Hi. destruct (prefix_split _ _ Hp) as [r ->].
  change ("!lastfeed" ++ r =? "!help") with false.
  change ("!lastfeed" ++ r =? "!list") with false.
  change ("!lastfeed" ++ r =? "!stats") with false.
  change ("!lastfeed" ++ r =? "!last") with false. cbv iota.
  rewrite bind_run. unfold get_news_from_feed, call. rewrite Hd.
  cbn [ret]. rewrite accumulate_concat. reflexivity.
Qed.

(** X11.  An empty answer is no message: when [__handle_msg] answers the
    empty text (a feed without news, say), [on_privmsg] sends nothing to
    anybody. *)
Theorem on_privmsg_empty_answer (event : Event) (arg0 : string)
    (rest : list string) (w : World) :
  arguments event = arg0 :: rest ->
  result_of (handle_msg (strip (lower arg0))) w = Ok "" ->
  lines_of (trace_of (on_privmsg event) w) = [].
Proof.
  intros Ha Hr. unfold trace_of, on_privmsg. rewrite Ha.
  rewrite bind_run. cbn [print log]. rewrite bind_run.
  pose proof (always_handle_msg (fun tr => lines_of tr = []) eq_refl
                (fun a b Ha Hb =>
                   eq_trans (lines_of_app a b) (f_equal2 (@List.app _) Ha Hb))
                (fun _ => eq_refl) (fun _ => eq_refl) (fun _ => eq_refl)
                (fun _ => eq_refl) (fun _ _ => eq_refl) (fun _ => eq_refl)
                (strip (lower arg0)) w) as Hl.
  unfold trace_of in Hl. unfold result_of in Hr.
  destruct (handle_msg (strip (lower arg0)) w) as [[r w1] t].
  cbn [fst snd] in Hl, Hr. subst r.
  change (send_msg (source_nick event) "" w1) with (Ok tt, w1, @nil action).
  cbn [snd List.app]. rewrite List.app_nil_r. exact Hl.
Qed.

(** X12.  Anything that is no command -- not "!help", "!list", "!stats",
    "!last", and not starting with "!lastfeed" -- is answered with the
    help text, as "!help" is, without any call. *)
Theorem unknown_command_gets_help (msg : string) (w : World) :
  msg <> "!list" -> msg <> "!stats" -> msg <> "!last" ->
  startswith msg "!lastfeed" = false ->
  handle_msg msg w = (Ok (help_text (connection_get_nickname w)), w, []).
Proof.
  intros H1 H2 H3 H4. unfold handle_msg, try_except, handle_msg_try.
  apply String.eqb_neq in H1, H2, H3. rewrite H1, H2, H3, H4.
  destruct (msg =? "!help"); rewrite help_msg_run; reflexivity.
Qed.

End HandlerExtras.

Section JoinExtras.

Context {World : Type} {collab : Collaborators World}.

Variable config : Config.

(** X13.  [on_join] gives the greeting to the connection as one line for
    the channel, without splitting and without pause, and then runs the
    callback.  It catches nothing: when the connection refuses the
    greeting the exception goes to the caller and the callback is not
    run. *)
Theorem on_join_greets (on_connect_cb : M World unit) (w : World) :
  let hello := greeting (connection_get_nickname w) in
  match connection_privmsg (CHANNEL config) hello w with
  | (Ok _, w1) =>
      on_join config on_connect_cb w =
      (fst (fst (on_connect_cb w1)), snd (fst (on_connect_cb w1)),
       ActPrivmsg (CHANNEL config) hello (Ok tt) :: snd (on_connect_cb w1))
  | (Raise e, w1) =>
      on_join config on_connect_cb w =
      (Raise e, w1, [ActPrivmsg (CHANNEL config) hello (Raise e)])
  end.
Proof.
  cbv zeta. unfold on_join. rewrite bind_run. cbn [get_nickname peek].
  rewrite bind_run. unfold privmsg, call.
  destruct (connection_privmsg (CHANNEL config) _ w) as [[[]|e] w1];
    [|reflexivity].
  destruct (on_connect_cb w1) as [[r w2] t]. reflexivity.
Qed.

End JoinExtras.

(** ** Numbers written and read back *)

Section Numbers.

Import Decimal.

Lemma digits_plain (d : uint) : plain (NilEmpty.string_of_uint d) = true.
Proof. induction d; cbn; auto. Qed.

Lemma rstrip_plain (s : string) : plain s = true -> rstrip s = s.
Proof.
  induction s as [|c s IH]; [reflexivity|]. cbn [plain rstrip].
  intros H. apply andb_true_iff in H. destruct H as [Hc Hs].
  rewrite (IH Hs). unfold plain_char in Hc.
  apply andb_true_iff in Hc. destruct Hc as [Hc _].
  apply negb_true_iff in Hc. rewrite Hc. destruct s; reflexivity.
Qed.

Lemma lstrip_plain (s : string) : plain s = true -> lstrip s = s.
Proof.
  intros H. destruct s as [|c s]; [reflexivity|]. cbn [plain] in H.
  cbn [lstrip]. apply andb_true_iff in H. destruct H as [Hc _].
  unfold plain_char in Hc. apply andb_true_iff in Hc. destruct Hc as [Hc _].
  apply negb_true_iff in Hc. now rewrite Hc.
Qed.

Lemma strip_plain (s : string) : plain s = true -> strip s = s.
Proof.
  intros H. unfold strip. rewrite (lstrip_plain s H). now apply rstrip_plain.
Qed.

(** A text without "!" holds no "!lastfeed" to replace. *)
Lemma replace_fuel_plain (fuel : nat) (new s : string) :
  plain s = true -> replace_fuel fuel "!lastfeed" new s = s.
Proof.
  revert s; induction fuel as [|fuel IH]; intros s H; [reflexivity|].
  destruct s as [|c s]; [reflexivity|]. cbn [plain] in H.
  apply andb_true_iff in H. destruct H as [Hc Hs].
  cbn [replace_fuel String.prefix].
  destruct (ascii_dec "!" c) as [<-|_]; [discriminate|].
  now rewrite (IH s Hs).
Qed.

Lemma digits_value_acc (d : uint) (acc : positive) :
  digits_value (Z.pos acc) (NilEmpty.string_of_uint d)
  = Some (Z.pos (Pos.of_uint_acc d acc)).
Proof.
  revert acc; induction d; intros acc; cbn [NilEmpty.string_of_uint];
    [reflexivity|..];
    cbn [digits_value]; cbv beta zeta;
    match goal with
    | |- context [nat_of_ascii ?c] =>
        let n := eval vm_compute in (nat_of_ascii c) in
        change (nat_of_ascii c) with n
    end;
    cbn [Nat.leb andb Nat.sub Z.of_nat Pos.of_succ_nat Pos.succ];
    cbn [Pos.of_uint_acc]; rewrite <- IHd; f_equal; lia.
Qed.

Lemma digits_value_uint (d : uint) :
  digits_value 0 (NilEmpty.string_of_uint d) = Some (Z.of_N (Pos.of_uint d)).
Proof.
  induction d; cbn [NilEmpty.string_of_uint]; [reflexivity|..];
    cbn [digits_value]; cbv beta zeta;
    match goal with
    | |- context [nat_of_ascii ?c] =>
        let n := eval vm_compute in (nat_of_ascii c) in
        change (nat_of_ascii c) with n
    end;
    cbn [Nat.leb andb Nat.sub Z.of_nat Pos.of_succ_nat Pos.succ Z.mul Z.add];
    cbn [Pos.of_uint N.of_uint Z.of_N];
    first [exact IHd | apply digits_value_acc].
Qed.

(** The decimal writing of a positive number reads back as the number. *)
Lemma py_int_pos (p : positive) :
  plain (NilEmpty.string_of_uint (Pos.to_uint p)) = true /\
  str_of_int (Z.pos p) = NilEmpty.string_of_uint (Pos.to_uint p) /\
  digits (NilEmpty.string_of_uint (Pos.to_uint p)) = Some (Z.pos p) /\
  py_int (NilEmpty.string_of_uint (Pos.to_uint p)) = Some (Z.pos p).
Proof.
  pose proof (DecimalPos.Unsigned.to_uint_nonnil p) as Hn.
  pose proof (DecimalPos.Unsigned.of_to p) as Hof.
  pose proof (digits_value_uint (Pos.to_uint p)) as Hv. rewrite Hof in Hv.
  pose proof (digits_plain (Pos.to_uint p)) as Hp.
  assert (Hd : digits (NilEmpty.string_of_uint (Pos.to_uint p))
               = Some (Z.pos p)).
  { unfold digits. destruct (Pos.to_uint p); [contradiction|..]; exact Hv. }
  split; [exact Hp|]. split.
  { unfold str_of_int, NilZero.string_of_int. cbn [Z.to_int].
    unfold NilZero.string_of_uint.
    destruct (Pos.to_uint p); [contradiction|..]; reflexivity. }
  split; [exact Hd|].
  unfold py_int. rewrite (lstrip_plain _ Hp).
  pose proof (rstrip_plain _ Hp) as Hr.
  destruct (Pos.to_uint p); [contradiction|..];
    cbn [NilEmpty.string_of_uint] in *; rewrite Hr; exact Hd.
Qed.

Lemma replace_fuel_step (fuel : nat) (old new : string) (c : ascii)
    (s : string) :
  replace_fuel (S fuel) old new (String c s) =
  if String.prefix old (String c s)
  then new ++ replace_fuel fuel old new (drop (String.length old) (String c s))
  else String c (replace_fuel fuel old new s).
Proof. reflexivity. Qed.

(** Taking "!lastfeed" out of "!lastfeed <number>" leaves " <number>". *)
Lemma replace_lastfeed_number (s : string) :
  plain s = true ->
  replace ("!lastfeed " ++ s) "!lastfeed" "" = String " " s.
Proof.
  intros Hp. unfold replace.
  change (String.length ("!lastfeed " ++ s))
    with (S (S (8 + String.length s))).
  change ("!lastfeed " ++ s) with ("!lastfeed" ++ String " " s).
  change ("!lastfeed" ++ String " " s)
    with (String "!" ("lastfeed" ++ String " " s)) at 1.
  rewrite replace_fuel_step.
  change (String "!" ("lastfeed" ++ String " " s))
    with ("!lastfeed" ++ String " " s).
  rewrite prefix_app.
  change (drop (String.length "!lastfeed") ("!lastfeed" ++ String " " s))
    with (String " " s).
  change ("" ++ replace_fuel (S (8 + String.length s)) "!lastfeed" ""
            (String " " s))
    with (replace_fuel (S (8 + String.length s)) "!lastfeed" "" (String " " s)).
  rewrite replace_fuel_step.
  change (String.prefix "!lastfeed" (String " " s)) with false. cbv iota.
  now rewrite (replace_fuel_plain _ "" _ Hp).
Qed.

(** [int(str(n)) == n] *)
Lemma py_int_str_of_int (n : Z) :
  plain (str_of_int n) = true /\ py_int (str_of_int n) = Some n.
Proof.
  destruct n as [|p|p].
  - split; reflexivity.
  - destruct (py_int_pos p) as (Hp & Hs & _ & Hi). rewrite Hs. now split.
  - destruct (py_int_pos p) as (Hp & Hs & Hd & _).
    assert (E : str_of_int (Z.neg p)
                = String "-" (NilEmpty.string_of_uint (Pos.to_uint p))).
    { unfold str_of_int, NilZero.string_of_int. cbn [Z.to_int].
      unfold NilZero.string_of_uint.
      pose proof (DecimalPos.Unsigned.to_uint_nonnil p) as Hn.
      destruct (Pos.to_uint p); [contradiction|..]; reflexivity. }
    rewrite E.
    assert (Hm : plain (String "-" (NilEmpty.string_of_uint (Pos.to_uint p)))
                 = true).
    { cbn [plain]. now rewrite Hp. }
    split; [exact Hm|].
    unfold py_int. rewrite (lstrip_plain _ Hm).
    rewrite (lstrip_plain _ Hp), (rstrip_plain _ Hp), Hd. reflexivity.
Qed.

End Numbers.

Section MoreExtras.

Context {World : Type} {collab : Collaborators World}.

Variable config : Config.

(** X14.  The number "!list" shows for a feed leads back to that feed:
    "!lastfeed " followed by [str(n)], for any integer [n], makes one call
    of the database, for feed [n], and answers with its rows. *)
Theorem lastfeed_by_shown_id (n : Z) (rows : list NewsRow) (w w1 : World) :
  db_get_news_from_feed n w = (Ok rows, w1) ->
  handle_msg ("!lastfeed " ++ str_of_int n) w =
  (Ok (String.concat "" (map news_line (rev rows))), w1,
   [ActNewsFromFeed n (Ok rows)]).
Proof.
  intros Hd. destruct (py_int_str_of_int n) as [Hp Hi].
  apply handle_msg_lastfeed; [| |exact Hd].
  - apply (prefix_app "!lastfeed" (" " ++ str_of_int n)).
  - assert (R : replace ("!lastfeed " ++ str_of_int n) "!lastfeed" ""
                = String " " (str_of_int n)).
    { apply replace_lastfeed_number. exact Hp. }
    rewrite R. unfold strip. cbn [lstrip].
    change (is_space " ") with true. cbv iota.
    fold (strip (str_of_int n)). rewrite (strip_plain _ Hp). exact Hi.
Qed.

(** X15.  The shortener answers the marker "Error": the loop body keeps
    the entry's own link, and inserts the entry under it, with its title
    and its date. *)
Theorem marker_keeps_own_link (feed_info : Feed) (e : Entry) (w w1 : World)
    (t l : string) :
  title e = Some t -> link e = Some l ->
  tinyurl_create_one l w = (Ok "Error", w1) ->
  exists r,
    inserts_of (trace_of (process_entry config feed_info e) w) =
    [mkInsert (feed_id feed_info) t l (date_rule e) r].
Proof.
  intros Ht Hl Hs. unfold trace_of. rewrite process_entry_run, Ht, Hl, Hs.
  cbv zeta. change (chosen_url l "Error") with l.
  destruct (db_insert_news (feed_id feed_info) t l (date_rule e) w1)
    as [[[|]|x] w2]; try (eexists; reflexivity).
  destruct (post_news_run config (feed_name feed_info) t l (date_rule e) w2)
    as (w3 & tr & E & I1 & _).
  rewrite E. cbn. fold (inserts_of tr). rewrite I1. eexists. reflexivity.
Qed.

End MoreExtras.

(** ** The further properties at work on the simulated world *)

(** The announcement of the first post is one line for "#news". *)
Lemma post_news_one_line_witness :
  post_news Sim.cfg "Planet" "First post" "http://tinyurl.com/1"
    "Mon, 01 Jan 2024" Sim.w0 =
  (Ok tt,
   Sim.mkWorld "rssbot" [Sim.entry_c; Sim.entry_b; Sim.entry_a] Sim.ShortWorks
     [] true 999,
   [ActPostNews "Planet" "First post" "http://tinyurl.com/1" "Mon, 01 Jan 2024";
    ActPrivmsg "#news"
      "Planet: First post, http://tinyurl.com/1, Mon, 01 Jan 2024" (Ok tt);
    ActSleep 1]).
Proof.
  apply (post_news_one_line Sim.cfg "Planet" "First post"
           "http://tinyurl.com/1" "Mon, 01 Jan 2024" Sim.w0).
  - reflexivity.
  - apply Nat.leb_le. vm_compute. reflexivity.
  - reflexivity.
Defined.



(** The second of three entries has no link: only the oldest is
    inserted. *)
Lemma unreadable_entry_stops_turn_witness :
  readable Sim2.entry_bad = false /\
  (exists x, result_of (fetch_try Sim.cfg Sim.feed1) Sim2.w_bad = Raise x) /\
  List.length (shortens_of (trace_of (fetch_once Sim.cfg Sim.feed1) Sim2.w_bad))
    <= 1 /\
  List.length (inserts_of (trace_of (fetch_once Sim.cfg Sim.feed1) Sim2.w_bad))
    <= 1.
Proof.
  split; [reflexivity|].
  exact (unreadable_entry_stops_turn Sim.cfg Sim.feed1 Sim2.w_bad Sim2.w_bad
           [Sim.entry_c] [Sim.entry_a] Sim2.entry_bad eq_refl eq_refl).
Defined.

(** Nothing is new, and still the shortener is asked three times. *)
Lemma turn_shortens_every_entry_witness :
  result_of (fetch_try Sim.cfg Sim.feed1) Sim.w_seen = Ok tt /\
  map Some (shortens_of (trace_of (fetch_once Sim.cfg Sim.feed1) Sim.w_seen))
    = [Some "http://planet.example.org/1"; Some "http://planet.example.org/2";
       Some "http://planet.example.org/3"] /\
  List.length (inserts_of (trace_of (fetch_once Sim.cfg Sim.feed1) Sim.w_seen))
    = 3.
Proof.
  assert (H : result_of (fetch_try Sim.cfg Sim.feed1) Sim.w_seen = Ok tt)
    by (vm_compute; reflexivity).
  split; [exact H|].
  exact (turn_shortens_every_entry Sim.cfg Sim.feed1 Sim.w_seen Sim.w_seen
           [Sim.entry_c; Sim.entry_b; Sim.entry_a] eq_refl H).
Defined.

(** "!lastfeed 3" with two rows: the older row comes first. *)
Lemma lastfeed_reply_witness :
  handle_msg (collab := Sim2.collaborators [Sim2.row1; Sim2.row2] true)
    "!lastfeed 3" Sim.w0 =
  (Ok (String.concat "" [news_line Sim2.row2; news_line Sim2.row1]), Sim.w0,
   [ActNewsFromFeed 3 (Ok [Sim2.row1; Sim2.row2])]).
Proof.
  exact (lastfeed_reply
           (collab := Sim2.collaborators [Sim2.row1; Sim2.row2] true)
           "!lastfeed 3" 3 [Sim2.row1; Sim2.row2] Sim.w0 Sim.w0
           eq_refl eq_refl eq_refl).
Defined.

(** "!last" with no news stored: no line goes out. *)
Lemma on_privmsg_empty_answer_witness :
  result_of (handle_msg (strip (lower " !Last"))) Sim.w0 = Ok "" /\
  lines_of (trace_of (on_privmsg (mkEvent [" !Last"] "alice")) Sim.w0) = [].
Proof.
  assert (H : result_of (handle_msg (strip (lower " !Last"))) Sim.w0 = Ok "")
    by (vm_compute; reflexivity).
  split; [exact H|].
  exact (on_privmsg_empty_answer (mkEvent [" !Last"] "alice") " !Last" []
           Sim.w0 eq_refl H).
Defined.

(** "hello" gets the help text. *)
Lemma unknown_command_gets_help_witness :
  handle_msg "hello" Sim.w0 = (Ok (help_text "rssbot"), Sim.w0, []).
Proof.
  assert (H1 : "hello" <> "!list") by discriminate.
  assert (H2 : "hello" <> "!stats") by discriminate.
  assert (H3 : "hello" <> "!last") by discriminate.
  exact (unknown_command_gets_help "hello" Sim.w0 H1 H2 H3 eq_refl).
Defined.

(** Feed -12. *)
Lemma lastfeed_by_shown_id_witness :
  handle_msg (collab := Sim2.collaborators [Sim2.row1; Sim2.row2] true)
    "!lastfeed -12" Sim.w0 =
  (Ok (String.concat "" [news_line Sim2.row2; news_line Sim2.row1]), Sim.w0,
   [ActNewsFromFeed (-12) (Ok [Sim2.row1; Sim2.row2])]).
Proof.
  exact (lastfeed_by_shown_id
           (collab := Sim2.collaborators [Sim2.row1; Sim2.row2] true)
           (-12) [Sim2.row1; Sim2.row2] Sim.w0 Sim.w0 eq_refl).
Defined.

(** The oldest entry, with the shortener answering "Error". *)
Lemma marker_keeps_own_link_witness :
  exists r,
    inserts_of (trace_of (process_entry Sim.cfg Sim.feed1 Sim.entry_a)
                  Sim.w_marker) =
    [mkInsert 1 "First post" "http://planet.example.org/1" "Mon, 01 Jan 2024" r].
Proof.
  exact (marker_keeps_own_link Sim.cfg Sim.feed1 Sim.entry_a Sim.w_marker
           Sim.w_marker "First post" "http://planet.example.org/1"
           eq_refl eq_refl eq_refl).
Defined.
